(** * qt3utils.datagenerators.plescanner: the CounterAndScanner controller

    A shallow embedding of [src/qt3utils/datagenerators/plescanner.py].

    - Python floats are IEEE-754 binary64 values: [PrimFloat.float].
    - Python ints ([current_t], [tmax], [num_daq_batches]) are [Z].
    - A method is a computation in a state-and-exception monad whose state is
      the controller object; a raised exception keeps the mutations made
      before it, as in Python.
    - The two collaborators (the wavelength controller and the rate counter)
      are external objects: their behaviour is a parameter of the
      development.  Every call that commands one of them is recorded in a
      trace, together with the calls to [time.sleep] and [logger.info]; the
      allowed-position check and the voltage read-back only read the
      wavelength controller and leave no entry. *)

From Stdlib Require Import ZArith List Bool String Lia.
From Stdlib Require Import Floats.PrimFloat Floats.FloatOps Floats.SpecFloat.
From Stdlib Require Import Numbers.Cyclic.Int63.Uint63.
Import ListNotations.

Set Implicit Arguments.
#[local] Set Warnings "-inexact-float".

(** ** Exceptions *)

(** The exception classes that the module tells apart: [move_v] and [go_to_v]
    catch [ValueError] only, so the class of an exception matters. *)
Inductive exn : Type :=
| ValueError (msg : string)
| AttributeError (msg : string)
| ZeroDivisionError (msg : string)
| OverflowError (msg : string)
| OtherError (msg : string).

Definition is_ValueError (e : exn) : bool :=
  match e with ValueError _ => true | _ => false end.

(** The result of a call: a value or a raised exception. *)
Inductive outcome (X : Type) : Type :=
| Return (x : X)
| Raise (e : exn).

Arguments Return {X} x.
Arguments Raise {X} e.

Definition returned {X : Type} (o : outcome X) : bool :=
  match o with Return _ => true | Raise _ => false end.

(** ** numpy.arange on binary64 arguments

    [np.arange(start, stop, step)] is NumPy's, not this repository's.  It is
    modelled after NumPy's implementation.  The length is
    [ceil((stop - start) / step)], with one exception: when that quotient is
    zero while [stop - start] is not (an infinite step, or underflow), the
    length is 1 for a quotient [+0] and 0 for a quotient [-0].  The first two
    entries are [start] and [start + step], and entry [i >= 2] is
    [start + i * delta] with [delta = (start + step) - start], all in
    binary64.  A zero step raises [ZeroDivisionError] from the division, a NaN
    quotient raises [ValueError], and a length outside the index type is
    reported as [ValueError] too.  Running out of memory for a long result is
    not modelled. *)
Module Numpy.

Local Open Scope Z_scope.

(** The ceiling of a binary64 value, [None] for NaN and the infinities. *)
Definition ceil_SF (x : spec_float) : option Z :=
  match x with
  | S754_zero _ => Some 0
  | S754_finite s m e =>
      let num := if s then Z.neg m else Z.pos m in
      Some (if 0 <=? e then num * 2 ^ e else - ((- num) / 2 ^ (- e)))
  | S754_infinity _ => None
  | S754_nan => None
  end.

Definition ceil (x : float) : option Z := ceil_SF (Prim2SF x).

Definition is_nan (x : float) : bool := negb (PrimFloat.eqb x x).

(** [i] as a binary64 value, for [0 <= i < 2^63]. *)
Definition float_of_Z (i : Z) : float := PrimFloat.of_uint63 (Uint63.of_Z i).

(** Entries [i, i+1, ..., i+n-1] of the filled buffer. *)
Fixpoint fill (start delta : float) (i : Z) (n : nat) : list float :=
  match n with
  | O => []
  | S n' => PrimFloat.add start (PrimFloat.mul (float_of_Z i) delta)
            :: fill start delta (i + 1) n'
  end.

Definition arange_values (start step : float) (len : Z) : list float :=
  if len <=? 0 then []
  else if len =? 1 then [start]
  else
    let next := PrimFloat.add start step in
    let delta := PrimFloat.sub next start in
    start :: next :: fill start delta 2 (Z.to_nat (len - 2)).

(** The sign bit, which tells [-0] from [+0]. *)
Definition signbit (x : float) : bool :=
  match Prim2SF x with
  | S754_zero s => s
  | S754_infinity s => s
  | S754_finite s _ _ => s
  | S754_nan => false
  end.

(** The quotient is zero although [stop - start] is not. *)
Definition zero_quotient (start stop step : float) : bool :=
  PrimFloat.eqb (PrimFloat.div (PrimFloat.sub stop start) step) PrimFloat.zero
  && negb (PrimFloat.eqb (PrimFloat.sub stop start) PrimFloat.zero).

(** The number of entries, or the exception raised while computing it. *)
Definition calc_length (start stop step : float) : outcome Z :=
  if PrimFloat.eqb step PrimFloat.zero then
    Raise (ZeroDivisionError "float division by zero")
  else
    let value := PrimFloat.div (PrimFloat.sub stop start) step in
    if is_nan value then Raise (ValueError "arange: cannot compute length")
    else
      match ceil value with
      | None => Raise (ValueError "Maximum allowed size exceeded")
      | Some len =>
          if (len <? - 2 ^ 63) || (2 ^ 63 <? len)
          then Raise (ValueError "Maximum allowed size exceeded")
          else if zero_quotient start stop step
          then Return (if signbit value then 0 else 1)
          else Return len
      end.

Definition arange (start stop step : float) : outcome (list float) :=
  match calc_length start stop step with
  | Raise e => Raise e
  | Return len => Return (arange_values start step len)
  end.

End Numpy.

(** ** The collaborators *)

(** The wavelength controller, an object with state [A].  The methods that move
    the device may raise and may change the object; the allowed-position check
    and the read-back only read it.  [wc_bool] is the object's truth value, as
    tested by [if self.wavelength_controller]. *)
Record WavelengthController (A : Type) : Type := {
  wc_bool : A -> bool;
  minimum_allowed_position : A -> float;
  maximum_allowed_position : A -> float;
  check_allowed_position : A -> float -> option exn;
  go_to_voltage : string -> float -> A -> option exn * A;
  go_to_position : string -> float -> A -> option exn * A;
  get_current_voltage : A -> float
}.

(** The rate counter, an object with state [C] that produces sample-results of
    type [R]. *)
Record RateCounter (C R : Type) : Type := {
  rc_start : C -> option exn * C;
  rc_stop : C -> option exn * C;
  rc_close : C -> option exn * C;
  rc_set_num_data_samples_per_batch : Z -> C -> C;
  rc_sample_counts : Z -> C -> outcome R * C;
  rc_sample_count_rate : R -> C -> outcome float * C
}.

(** ** The trace *)

(** What [logger.info] is called with. *)
Inductive log_message (R : Type) : Type :=
| MsgOutOfRange (e : exn)
| MsgGoToVoltage (axis : string) (val : float)
| MsgRawCounts (raw_counts : R)
| MsgCurrentVoltage (v : float).

Arguments MsgOutOfRange {R} e.
Arguments MsgGoToVoltage {R} axis val.
Arguments MsgRawCounts {R} raw_counts.
Arguments MsgCurrentVoltage {R} v.

(** A call that leaves the controller's own code.  A keyword argument is
    recorded with its name; [EvSampleCounts] also records what the call
    returned ([None] when it raised). *)
Inductive event (R : Type) : Type :=
| EvGoToVoltage (kw : string) (v : float)
| EvGoToPosition (kw : string) (v : float)
| EvStart
| EvStop
| EvClose
| EvSetSamplesPerBatch (n : Z)
| EvSampleCounts (num_batches : Z) (res : option R)
| EvSampleCountRate (data_counts : R)
| EvSleep (seconds : float)
| EvLogInfo (msg : log_message R).

Arguments EvGoToVoltage {R} kw v.
Arguments EvGoToPosition {R} kw v.
Arguments EvStart {R}.
Arguments EvStop {R}.
Arguments EvClose {R}.
Arguments EvSetSamplesPerBatch {R} n.
Arguments EvSampleCounts {R} num_batches res.
Arguments EvSampleCountRate {R} data_counts.
Arguments EvSleep {R} seconds.
Arguments EvLogInfo {R} msg.

(** The values the wavelength controller was commanded to, oldest first. *)
Fixpoint commanded {R : Type} (evs : list (event R)) : list float :=
  match evs with
  | [] => []
  | EvGoToVoltage _ v :: evs' => v :: commanded evs'
  | EvGoToPosition _ v :: evs' => v :: commanded evs'
  | _ :: evs' => commanded evs'
  end.

(** The successful samples of a trace, each with the value the wavelength
    controller was last commanded to when the sample was taken ([at] before
    the first command of the trace). *)
Fixpoint sampled {R : Type} (at_ : option float) (evs : list (event R))
  : list (option float * R) :=
  match evs with
  | [] => []
  | EvGoToVoltage _ v :: evs' => sampled (Some v) evs'
  | EvGoToPosition _ v :: evs' => sampled (Some v) evs'
  | EvSampleCounts _ (Some r) :: evs' => (at_, r) :: sampled at_ evs'
  | _ :: evs' => sampled at_ evs'
  end.

(** ** time.sleep

    [time.sleep(t)] raises [ValueError] for a negative or NaN [t] and
    [OverflowError] for a [t] beyond the platform's time type (taken here as
    64-bit nanoseconds). *)
Definition sleep_outcome (t : float) : option exn :=
  if negb (PrimFloat.leb 0 t) then Some (ValueError "sleep length must be non-negative")
  else if PrimFloat.leb 9223372036 t then Some (OverflowError "timestamp too large")
  else None.

(** ** The monad of methods

    A method takes the object to an outcome and the object as the method left
    it: what a method assigned before it raised stays assigned. *)

Section Monad.

Variable St : Type.

Definition M (X : Type) : Type := St -> outcome X * St.

Definition ret {X : Type} (x : X) : M X := fun s => (Return x, s).

Definition raise {X : Type} (e : exn) : M X := fun s => (Raise e, s).

Definition bind {X Y : Type} (m : M X) (k : X -> M Y) : M Y :=
  fun s =>
    match m s with
    | (Return x, s') => k x s'
    | (Raise e, s') => (Raise e, s')
    end.

(** Reading an attribute and assigning attributes. *)
Definition attr {X : Type} (f : St -> X) : M X :=
  fun s => (Return (f s), s).

Definition assign (f : St -> St) : M unit :=
  fun s => (Return tt, f s).

(** [try: m ... except ValueError as e: h e] *)
Definition try_except_ValueError (m : M unit) (h : exn -> M unit) : M unit :=
  fun s =>
    match m s with
    | (Raise e, s') => if is_ValueError e then h e s' else (Raise e, s')
    | r => r
    end.

(** [if b: m] *)
Definition when (b : bool) (m : M unit) : M unit := if b then m else ret tt.

End Monad.

Declare Scope py_scope.
Delimit Scope py_scope with py.
Notation "x <- m ;; k" := (bind m (fun x => k))
  (at level 61, m at next level, right associativity) : py_scope.
Notation "m ;; k" := (bind m (fun _ => k))
  (at level 61, right associativity) : py_scope.

(** [[f x for x in l]] *)
Fixpoint map_M {St X Y : Type} (f : X -> M St Y) (l : list X) : M St (list Y) :=
  match l with
  | [] => ret []
  | x :: l' => (y <- f x ;; ys <- map_M f l' ;; ret (y :: ys))%py
  end.

(** [m] called [n] times in a row. *)
Fixpoint repeat_M {St : Type} (n : nat) (m : M St unit) : M St unit :=
  match n with
  | O => ret tt
  | S n' => (m ;; repeat_M n' m)%py
  end.

(** [m] leaves the observation [f] of the object as it was, whether it
    returns or raises. *)
Definition keeps {St X F : Type} (f : St -> F) (m : M St X) : Prop :=
  forall s, f (snd (m s)) = f s.

(** ** The controller *)

Section Controller.

Variables A C R : Type.
Variable wc : WavelengthController A.
Variable rc : RateCounter C R.

Record CounterAndScanner : Type := {
  running : bool;
  current_t : Z;
  vmin : float;
  vmax : float;
  tmax : Z;
  _step_size : float;
  raster_line_pause : float;
  scanned_raw_counts : list (list R);
  scanned_count_rate : list (list float);
  (** [None] is Python's [None]. *)
  wavelength_controller : option A;
  rate_counter : C;
  num_daq_batches : Z;
  (** [None] while the attribute does not exist: [__init__] never assigns it. *)
  current_v : option float;
  (** Ghost field: the calls made to the collaborators, to [time.sleep] and to
      the logger, oldest first. *)
  trace : list (event R)
}.

Definition set_running (x : bool) (s : CounterAndScanner) : CounterAndScanner :=
  {| running := x;
     current_t := current_t s;
     vmin := vmin s;
     vmax := vmax s;
     tmax := tmax s;
     _step_size := _step_size s;
     raster_line_pause := raster_line_pause s;
     scanned_raw_counts := scanned_raw_counts s;
     scanned_count_rate := scanned_count_rate s;
     wavelength_controller := wavelength_controller s;
     rate_counter := rate_counter s;
     num_daq_batches := num_daq_batches s;
     current_v := current_v s;
     trace := trace s |}.

Definition set_current_t (x : Z) (s : CounterAndScanner) : CounterAndScanner :=
  {| running := running s;
     current_t := x;
     vmin := vmin s;
     vmax := vmax s;
     tmax := tmax s;
     _step_size := _step_size s;
     raster_line_pause := raster_line_pause s;
     scanned_raw_counts := scanned_raw_counts s;
     scanned_count_rate := scanned_count_rate s;
     wavelength_controller := wavelength_controller s;
     rate_counter := rate_counter s;
     num_daq_batches := num_daq_batches s;
     current_v := current_v s;
     trace := trace s |}.

Definition set_vmin (x : float) (s : CounterAndScanner) : CounterAndScanner :=
  {| running := running s;
     current_t := current_t s;
     vmin := x;
     vmax := vmax s;
     tmax := tmax s;
     _step_size := _step_size s;
     raster_line_pause := raster_line_pause s;
     scanned_raw_counts := scanned_raw_counts s;
     scanned_count_rate := scanned_count_rate s;
     wavelength_controller := wavelength_controller s;
     rate_counter := rate_counter s;
     num_daq_batches := num_daq_batches s;
     current_v := current_v s;
     trace := trace s |}.

Definition set_vmax (x : float) (s : CounterAndScanner) : CounterAndScanner :=
  {| running := running s;
     current_t := current_t s;
     vmin := vmin s;
     vmax := x;
     tmax := tmax s;
     _step_size := _step_size s;
     raster_line_pause := raster_line_pause s;
     scanned_raw_counts := scanned_raw_counts s;
     scanned_count_rate := scanned_count_rate s;
     wavelength_controller := wavelength_controller s;
     rate_counter := rate_counter s;
     num_daq_batches := num_daq_batches s;
     current_v := current_v s;
     trace := trace s |}.

Definition set_step_size (x : float) (s : CounterAndScanner) : CounterAndScanner :=
  {| running := running s;
     current_t := current_t s;
     vmin := vmin s;
     vmax := vmax s;
     tmax := tmax s;
     _step_size := x;
     raster_line_pause := raster_line_pause s;
     scanned_raw_counts := scanned_raw_counts s;
     scanned_count_rate := scanned_count_rate s;
     wavelength_controller := wavelength_controller s;
     rate_counter := rate_counter s;
     num_daq_batches := num_daq_batches s;
     current_v := current_v s;
     trace := trace s |}.

Definition set_scanned_raw_counts (x : list (list R)) (s : CounterAndScanner) : CounterAndScanner :=
  {| running := running s;
     current_t := current_t s;
     vmin := vmin s;
     vmax := vmax s;
     tmax := tmax s;
     _step_size := _step_size s;
     raster_line_pause := raster_line_pause s;
     scanned_raw_counts := x;
     scanned_count_rate := scanned_count_rate s;
     wavelength_controller := wavelength_controller s;
     rate_counter := rate_counter s;
     num_daq_batches := num_daq_batches s;
     current_v := current_v s;
     trace := trace s |}.

Definition set_scanned_count_rate (x : list (list float)) (s : CounterAndScanner) : CounterAndScanner :=
  {| running := running s;
     current_t := current_t s;
     vmin := vmin s;
     vmax := vmax s;
     tmax := tmax s;
     _step_size := _step_size s;
     raster_line_pause := raster_line_pause s;
     scanned_raw_counts := scanned_raw_counts s;
     scanned_count_rate := x;
     wavelength_controller := wavelength_controller s;
     rate_counter := rate_counter s;
     num_daq_batches := num_daq_batches s;
     current_v := current_v s;
     trace := trace s |}.

Definition set_wavelength_controller (x : option A) (s : CounterAndScanner) : CounterAndScanner :=
  {| running := running s;
     current_t := current_t s;
     vmin := vmin s;
     vmax := vmax s;
     tmax := tmax s;
     _step_size := _step_size s;
     raster_line_pause := raster_line_pause s;
     scanned_raw_counts := scanned_raw_counts s;
     scanned_count_rate := scanned_count_rate s;
     wavelength_controller := x;
     rate_counter := rate_counter s;
     num_daq_batches := num_daq_batches s;
     current_v := current_v s;
     trace := trace s |}.

Definition set_rate_counter (x : C) (s : CounterAndScanner) : CounterAndScanner :=
  {| running := running s;
     current_t := current_t s;
     vmin := vmin s;
     vmax := vmax s;
     tmax := tmax s;
     _step_size := _step_size s;
     raster_line_pause := raster_line_pause s;
     scanned_raw_counts := scanned_raw_counts s;
     scanned_count_rate := scanned_count_rate s;
     wavelength_controller := wavelength_controller s;
     rate_counter := x;
     num_daq_batches := num_daq_batches s;
     current_v := current_v s;
     trace := trace s |}.

Definition set_current_v (x : option float) (s : CounterAndScanner) : CounterAndScanner :=
  {| running := running s;
     current_t := current_t s;
     vmin := vmin s;
     vmax := vmax s;
     tmax := tmax s;
     _step_size := _step_size s;
     raster_line_pause := raster_line_pause s;
     scanned_raw_counts := scanned_raw_counts s;
     scanned_count_rate := scanned_count_rate s;
     wavelength_controller := wavelength_controller s;
     rate_counter := rate_counter s;
     num_daq_batches := num_daq_batches s;
     current_v := x;
     trace := trace s |}.

Definition set_trace (x : list (event R)) (s : CounterAndScanner) : CounterAndScanner :=
  {| running := running s;
     current_t := current_t s;
     vmin := vmin s;
     vmax := vmax s;
     tmax := tmax s;
     _step_size := _step_size s;
     raster_line_pause := raster_line_pause s;
     scanned_raw_counts := scanned_raw_counts s;
     scanned_count_rate := scanned_count_rate s;
     wavelength_controller := wavelength_controller s;
     rate_counter := rate_counter s;
     num_daq_batches := num_daq_batches s;
     current_v := current_v s;
     trace := x |}.

(** The type of a method of the controller returning an [X]. *)
Definition Method (X : Type) : Type := M CounterAndScanner X.

Local Open Scope py_scope.
Local Open Scope float_scope.

Definition emit (ev : event R) : Method unit :=
  assign (fun s => set_trace (trace s ++ [ev]) s).

Definition logger_info (msg : log_message R) : Method unit := emit (EvLogInfo msg).

Definition time_sleep (t : float) : Method unit :=
  match sleep_outcome t with
  | Some e => raise e
  | None => emit (EvSleep t)
  end.

Definition of_option_exn (r : option exn) : outcome unit :=
  match r with None => Return tt | Some e => Raise e end.

(** A call [self.wavelength_controller.name(...)]: on [None] the attribute
    lookup raises [AttributeError] and nothing is called. *)
Definition wc_call (name : string) (ev : event R) (op : A -> option exn * A) : Method unit :=
  fun s =>
    match wavelength_controller s with
    | None => (Raise (AttributeError name), s)
    | Some a =>
        let (r, a') := op a in
        (of_option_exn r,
         set_wavelength_controller (Some a') (set_trace (trace s ++ [ev]) s))
    end.

Definition wc_read {X : Type} (name : string) (f : A -> X) : Method X :=
  fun s =>
    match wavelength_controller s with
    | None => (Raise (AttributeError name), s)
    | Some a => (Return (f a), s)
    end.

(** A call [self.rate_counter.name(...)]. *)
Definition rc_call {X : Type} (ev : outcome X -> event R) (op : C -> outcome X * C) : Method X :=
  fun s =>
    let (r, c') := op (rate_counter s) in
    (r, set_rate_counter c' (set_trace (trace s ++ [ev r]) s)).

(** The truth value of [self.wavelength_controller]. *)
Definition wc_present (s : CounterAndScanner) : bool :=
  match wavelength_controller s with
  | None => false
  | Some a => wc_bool wc a
  end.

Definition rc_cmd (ev : event R) (op : C -> option exn * C) : Method unit :=
  fun s =>
    let (r, c') := op (rate_counter s) in
    (of_option_exn r, set_rate_counter c' (set_trace (trace s ++ [ev]) s)).

Definition value_of {X : Type} (o : outcome X) : option X :=
  match o with Return x => Some x | Raise _ => None end.

(** Reading [self.current_v]: [AttributeError] while the attribute is unset. *)
Definition read_current_v : Method float :=
  fun s =>
    match current_v s with
    | None => (Raise (AttributeError "current_v"), s)
    | Some v => (Return v, s)
    end.

(** *** The methods of [CounterAndScanner], in source order *)

(** The object [__init__] builds from a rate counter and a wavelength
    controller that is not [None]. *)
Definition constructed (rate_counter0 : C) (a : A) : CounterAndScanner :=
  {| running := false;
     current_t := 0;
     vmin := minimum_allowed_position wc a;
     vmax := maximum_allowed_position wc a;
     tmax := 100;
     _step_size := 0.5;
     raster_line_pause := 0.150;
     scanned_raw_counts := [];
     scanned_count_rate := [];
     wavelength_controller := Some a;
     rate_counter := rate_counter0;
     num_daq_batches := 1;
     current_v := None;
     trace := [] |}.

(** [plescanner.py], lines 10-25.  With [None] for the wavelength controller
    the constructor fails on [wavelength_controller.minimum_allowed_position]. *)
Definition __init__ (rate_counter0 : C) (wavelength_controller0 : option A)
  : outcome CounterAndScanner :=
  match wavelength_controller0 with
  | None => Raise (AttributeError "minimum_allowed_position")
  | Some a => Return (constructed rate_counter0 a)
  end.

(** [plescanner.py], lines 27-29. *)
Definition stop : Method unit :=
  rc_cmd EvStop (rc_stop rc) ;;
  assign (set_running false).

(** [plescanner.py], lines 31-33. *)
Definition start : Method unit :=
  assign (set_running true) ;;
  rc_cmd EvStart (rc_start rc).

(** [plescanner.py], lines 35-38: [current_v] is assigned before the move is commanded. *)
Definition set_to_starting_position : Method unit :=
  v <- attr vmin ;;
  assign (set_current_v (Some v)) ;;
  present <- attr wc_present ;;
  when present
    (v <- attr vmin ;;
     wc_call "go_to_voltage" (EvGoToVoltage "v" v) (go_to_voltage wc "v" v)).

(** [plescanner.py], lines 40-41. *)
Definition close : Method unit := rc_cmd EvClose (rc_close rc).

(** [plescanner.py], lines 43-44. *)
Definition set_num_data_samples_per_batch (N : Z) : Method unit :=
  assign (fun s =>
    set_rate_counter (rc_set_num_data_samples_per_batch rc N (rate_counter s))
      (set_trace (trace s ++ [EvSetSamplesPerBatch N]) s)).

(** [plescanner.py], lines 46-47. *)
Definition sample_counts : Method R :=
  n <- attr num_daq_batches ;;
  rc_call (fun r => EvSampleCounts n (value_of r)) (rc_sample_counts rc n).

(** [plescanner.py], lines 49-52; [None] is the default argument. *)
Definition sample_count_rate (data_counts : option R) : Method float :=
  data <- match data_counts with
          | None => sample_counts
          | Some d => ret d
          end ;;
  rc_call (fun _ => EvSampleCountRate data) (rc_sample_count_rate rc data).

Definition wc_check_allowed_position (v : float) : Method unit :=
  fun s =>
    match wavelength_controller s with
    | None => (Raise (AttributeError "check_allowed_position"), s)
    | Some a => (of_option_exn (check_allowed_position wc a v), s)
    end.

(** [plescanner.py], lines 54-59: both checks come before both assignments. *)
Definition set_scan_range (vmin0 vmax0 : float) : Method unit :=
  present <- attr wc_present ;;
  when present
    (wc_check_allowed_position vmin0 ;;
     wc_check_allowed_position vmax0) ;;
  assign (set_vmin vmin0) ;;
  assign (set_vmax vmax0).

(** [plescanner.py], lines 61-66. *)
Definition get_scan_range : Method (float * float) :=
  lo <- attr vmin ;;
  hi <- attr vmax ;;
  ret (lo, hi).

(** [plescanner.py], lines 68-73. *)
Definition get_completed_scan_range : Method (float * float * float) :=
  lo <- attr vmin ;;
  hi <- attr vmax ;;
  v <- read_current_v ;;
  ret (lo, hi, v).

(** [plescanner.py], lines 75-83. *)
Definition still_scanning : Method bool :=
  r <- attr running ;;
  if Bool.eqb r false then ret false
  else
    t <- attr current_t ;;
    tm <- attr tmax ;;
    if (t <=? tm)%Z then ret true
    else assign (set_running false) ;; ret false.

(** [plescanner.py], lines 85-91: the guard compares with [vmax] only. *)
Definition move_v : Method unit :=
  v <- read_current_v ;;
  step <- attr _step_size ;;
  assign (set_current_v (Some (v + step))) ;;
  present <- attr wc_present ;;
  v' <- read_current_v ;;
  hi <- attr vmax ;;
  when (present && (v' <=? hi))
    (try_except_ValueError
       (wc_call "go_to_position" (EvGoToPosition "v" v') (go_to_position wc "v" v'))
       (fun e => logger_info (MsgOutOfRange e))).

(** [plescanner.py], lines 93-98: the guard compares with both [vmax] and [vmin]. *)
Definition go_to_v (desired_voltage : float) : Method unit :=
  present <- attr wc_present ;;
  hi <- attr vmax ;;
  lo <- attr vmin ;;
  when (present && (desired_voltage <=? hi) && (lo <=? desired_voltage))
    (try_except_ValueError
       (wc_call "go_to_voltage" (EvGoToVoltage "v" desired_voltage)
          (go_to_voltage wc "v" desired_voltage))
       (fun e => logger_info (MsgOutOfRange e))).

(** [plescanner.py], lines 121-129: the [for val in np.arange(...)] loop of
    [scan_axis], over the values still to visit; [raw_counts] is the local
    list built so far. *)
Fixpoint scan_axis_loop (axis : string) (vals : list float) (raw_counts : list R)
  : Method (list R) :=
  match vals with
  | [] => ret raw_counts
  | val :: vals' =>
      present <- attr wc_present ;;
      when present
        (logger_info (MsgGoToVoltage axis val) ;;
         wc_call "go_to_voltage" (EvGoToVoltage axis val) (go_to_voltage wc axis val)) ;;
      _raw_counts <- sample_counts ;;
      logger_info (MsgRawCounts _raw_counts) ;;
      present' <- attr wc_present ;;
      when present'
        (cur <- wc_read "get_current_voltage" (get_current_voltage wc) ;;
         logger_info (MsgCurrentVoltage cur)) ;;
      scan_axis_loop axis vals' (raw_counts ++ [_raw_counts])
  end.

Definition np_arange (lo hi step : float) : Method (list float) :=
  fun s => (Numpy.arange lo hi step, s).

(** [plescanner.py], lines 111-131: the first move is made whether or not the controller is true;
    [np.arange] is evaluated after the sleep. *)
Definition scan_axis (axis : string) (min max step_size : float) : Method (list R) :=
  wc_call "go_to_voltage" (EvGoToVoltage axis min) (go_to_voltage wc axis min) ;;
  pause <- attr raster_line_pause ;;
  time_sleep pause ;;
  vals <- np_arange min max step_size ;;
  scan_axis_loop axis vals [].

(** [plescanner.py], lines 100-109. *)
Definition scan_v : Method unit :=
  lo <- attr vmin ;;
  hi <- attr vmax ;;
  step <- attr _step_size ;;
  raw_counts_for_axis <- scan_axis "v" lo hi step ;;
  assign (fun s => set_scanned_raw_counts (scanned_raw_counts s ++ [raw_counts_for_axis]) s) ;;
  rates <- map_M (fun raw_counts => sample_count_rate (Some raw_counts)) raw_counts_for_axis ;;
  assign (fun s => set_scanned_count_rate (scanned_count_rate s ++ [rates]) s) ;;
  assign (fun s => set_current_t (current_t s + 1)%Z s).

(** [plescanner.py], lines 133-135. *)
Definition reset : Method unit :=
  assign (set_scanned_raw_counts []) ;;
  assign (set_scanned_count_rate []).

(** [plescanner.py], lines 137-141. *)
Definition configure_view : Method unit := ret tt.

(** [plescanner.py], lines 143-145, the property getter. *)
Definition step_size : Method float := attr _step_size.

(** [plescanner.py], lines 146-148, the property setter. *)
Definition set_step_size_property (val : float) : Method unit := assign (set_step_size val).

(** *** Sequences of calls from outside

    A call of a public method with its arguments, and the object after a
    caller has made a sequence of such calls one after the other, whatever
    each returned or raised. *)
Inductive call : Type :=
| CallStop
| CallStart
| CallSetToStartingPosition
| CallClose
| CallSetNumDataSamplesPerBatch (N : Z)
| CallSampleCounts
| CallSampleCountRate (data_counts : option R)
| CallSetScanRange (vmin0 vmax0 : float)
| CallGetScanRange
| CallGetCompletedScanRange
| CallStillScanning
| CallMoveV
| CallGoToV (desired_voltage : float)
| CallScanV
| CallScanAxis (axis : string) (min max step_size : float)
| CallReset
| CallConfigureView
| CallGetStepSize
| CallSetStepSize (val : float).

Definition after_call (c : call) (s : CounterAndScanner) : CounterAndScanner :=
  match c with
  | CallStop => snd (stop s)
  | CallStart => snd (start s)
  | CallSetToStartingPosition => snd (set_to_starting_position s)
  | CallClose => snd (close s)
  | CallSetNumDataSamplesPerBatch N => snd (set_num_data_samples_per_batch N s)
  | CallSampleCounts => snd (sample_counts s)
  | CallSampleCountRate d => snd (sample_count_rate d s)
  | CallSetScanRange lo hi => snd (set_scan_range lo hi s)
  | CallGetScanRange => snd (get_scan_range s)
  | CallGetCompletedScanRange => snd (get_completed_scan_range s)
  | CallStillScanning => snd (still_scanning s)
  | CallMoveV => snd (move_v s)
  | CallGoToV v => snd (go_to_v v s)
  | CallScanV => snd (scan_v s)
  | CallScanAxis axis lo hi step => snd (scan_axis axis lo hi step s)
  | CallReset => snd (reset s)
  | CallConfigureView => snd (configure_view s)
  | CallGetStepSize => snd (step_size s)
  | CallSetStepSize val => snd (set_step_size_property val s)
  end.

Definition after_calls (cs : list call) (s : CounterAndScanner) : CounterAndScanner :=
  fold_left (fun s' c => after_call c s') cs s.

Definition is_set_to_starting_position (c : call) : bool :=
  match c with CallSetToStartingPosition => true | _ => false end.

(** The condition as the specification words it for [move_v]: the position
    lies within [[vmin, vmax]], both ends checked. *)
Definition within_scan_range (s : CounterAndScanner) (v : float) : bool :=
  (vmin s <=? v) && (v <=? vmax s).

(** The events a call added to the trace, given the object before and after. *)
Definition new_events (s s' : CounterAndScanner) : list (event R) :=
  List.skipn (List.length (trace s)) (trace s').

(** An observation of the controller is blind to the devices when it reads
    neither the ghost trace nor the state of either collaborator. *)
Record device_blind (F : Type) (f : CounterAndScanner -> F) : Prop := {
  blind_trace : forall x s, f (set_trace x s) = f s;
  blind_wc : forall x s, f (set_wavelength_controller x s) = f s;
  blind_rc : forall x s, f (set_rate_counter x s) = f s
}.

End Controller.

(** The moves of a line scan over [vals], from the controller state [a], are
    all accepted, and the controller object is true each time it is tested:
    before each move and after it. *)
Fixpoint moves_accepted {A : Type} (wc : WavelengthController A) (axis : string)
    (a : A) (vals : list float) : bool :=
  match vals with
  | [] => true
  | v :: vals' =>
      wc_bool wc a &&
      match go_to_voltage wc axis v a with
      | (None, a') => wc_bool wc a' && moves_accepted wc axis a' vals'
      | (Some _, _) => false
      end
  end.

(** [k] calls of [sample_counts(n)] in a row, from the counter state [c], all
    return. *)
Fixpoint samples_returned {C R : Type} (rc : RateCounter C R) (n : Z) (c : C) (k : nat)
  : bool :=
  match k with
  | O => true
  | S k' =>
      match rc_sample_counts rc n c with
      | (Return _, c') => samples_returned rc n c' k'
      | (Raise _, _) => false
      end
  end.

Definition is_set_scan_range {R : Type} (c : call R) : bool :=
  match c with CallSetScanRange _ _ _ => true | _ => false end.

Definition is_scan_v {R : Type} (c : call R) : bool :=
  match c with CallScanV _ => true | _ => false end.

(** How many of the calls are calls of [scan_v]. *)
Definition sweep_calls {R : Type} (cs : list (call R)) : nat :=
  List.length (List.filter is_scan_v cs).

(** ** Stub collaborators, for concrete runs *)

Module Stub.

Local Open Scope float_scope.

(** A device with a position, the bounds it allows, and a truth value. *)
Record actuator : Type := {
  position : float;
  lowest : float;
  highest : float;
  truth : bool
}.

Definition allowed (a : actuator) (v : float) : bool :=
  (lowest a <=? v) && (v <=? highest a).

Definition move_to (v : float) (a : actuator) : actuator :=
  {| position := v; lowest := lowest a; highest := highest a; truth := truth a |}.

Definition checked_move (kw : string) (v : float) (a : actuator) : option exn * actuator :=
  if negb (String.eqb kw "v") then (Some (OtherError "unexpected keyword argument"), a)
  else if allowed a v then (None, move_to v a)
  else (Some (ValueError "value out of range"), a).

(** A controller that rejects what lies outside its bounds with [ValueError]. *)
Definition bounded : WavelengthController actuator :=
  {| wc_bool := truth;
     minimum_allowed_position := lowest;
     maximum_allowed_position := highest;
     check_allowed_position := fun a v =>
       if allowed a v then None else Some (ValueError "value out of range");
     go_to_voltage := checked_move;
     go_to_position := checked_move;
     get_current_voltage := position |}.

(** A controller that accepts every move. *)
Definition lenient : WavelengthController actuator :=
  {| wc_bool := fun _ => true;
     minimum_allowed_position := lowest;
     maximum_allowed_position := highest;
     check_allowed_position := fun _ _ => None;
     go_to_voltage := fun _ v a => (None, move_to v a);
     go_to_position := fun _ v a => (None, move_to v a);
     get_current_voltage := position |}.

(** A counter whose [k]-th sample is [k]; the count rate of [k] is [k] as a
    float. *)
Definition counter : RateCounter Z Z :=
  {| rc_start := fun c => (None, c);
     rc_stop := fun c => (None, c);
     rc_close := fun c => (None, c);
     rc_set_num_data_samples_per_batch := fun _ c => c;
     rc_sample_counts := fun _ c => (Return c, (c + 1)%Z);
     rc_sample_count_rate := fun r c => (Return (Numpy.float_of_Z r), c) |}.

Definition device (lo hi : float) : actuator :=
  {| position := lo; lowest := lo; highest := hi; truth := true |}.

(** An object that is false in a boolean context. *)
Definition falsy_device (lo hi : float) : actuator :=
  {| position := lo; lowest := lo; highest := hi; truth := false |}.

(** A controller as [__init__] leaves it, on a device allowing [lo..hi]. *)
Definition fresh (lo hi : float) : CounterAndScanner actuator Z Z :=
  constructed Z bounded 0%Z (device lo hi).

(** [fresh 0 10] after [set_to_starting_position()] and then
    [set_scan_range(5, 10)]: the position is 0, below the new [vmin]. *)
Definition narrowed : CounterAndScanner actuator Z Z :=
  snd (bind (set_to_starting_position bounded)
         (fun _ => set_scan_range bounded 5 10) (fresh 0 10)).

(** A controller whose check accepts everything while its moves are checked. *)
Definition unchecked : WavelengthController actuator :=
  {| wc_bool := truth;
     minimum_allowed_position := lowest;
     maximum_allowed_position := highest;
     check_allowed_position := fun _ _ => None;
     go_to_voltage := checked_move;
     go_to_position := checked_move;
     get_current_voltage := position |}.

(** On a device allowing 0..10 behind [unchecked]:
    [set_to_starting_position()], [set_scan_range(0, 20)], [step_size = 10.5].
    The next step lands on 10.5: within the scan range, beyond the device. *)
Definition overreaching : CounterAndScanner actuator Z Z :=
  snd ((set_to_starting_position unchecked ;;
        set_scan_range unchecked 0 20 ;;
        set_step_size_property 10.5)%py
       (constructed Z unchecked 0%Z (device 0 10))).

Definition fresh_lenient (lo hi : float) : CounterAndScanner actuator Z Z :=
  constructed Z lenient 0%Z (device lo hi).

Definition fresh_falsy (lo hi : float) : CounterAndScanner actuator Z Z :=
  constructed Z bounded 0%Z (falsy_device lo hi).

(** [fresh_lenient 0 10] after [start()]. *)
Definition started : CounterAndScanner actuator Z Z :=
  snd (start counter (fresh_lenient 0 10)).

(** Calls that leave [set_to_starting_position] out. *)
Definition some_calls : list (call Z) :=
  [CallStart Z; CallSetScanRange Z 2 8; CallScanV Z; CallMoveV Z;
   CallGetCompletedScanRange Z; CallReset Z].

(** A controller whose moves fail with an error that is not a [ValueError]. *)
Definition faulty : WavelengthController actuator :=
  {| wc_bool := truth;
     minimum_allowed_position := lowest;
     maximum_allowed_position := highest;
     check_allowed_position := fun _ _ => None;
     go_to_voltage := fun _ _ a => (Some (OtherError "device disconnected"), a);
     go_to_position := fun _ _ a => (Some (OtherError "device disconnected"), a);
     get_current_voltage := position |}.

(** A counter that samples like [counter] and fails to convert to a rate. *)
Definition failing_counter : RateCounter Z Z :=
  {| rc_start := fun c => (None, c);
     rc_stop := fun c => (None, c);
     rc_close := fun c => (None, c);
     rc_set_num_data_samples_per_batch := fun _ c => c;
     rc_sample_counts := fun _ c => (Return c, (c + 1)%Z);
     rc_sample_count_rate := fun _ c => (Raise (OtherError "no clock samples"), c) |}.

(** On [faulty], after [set_to_starting_position()], which raised. *)
Definition positioned_on_faulty : CounterAndScanner actuator Z Z :=
  snd (set_to_starting_position faulty (constructed Z faulty 0%Z (device 0 10))).

(** [fresh 0 10] with [None] put in place of the wavelength controller. *)
Definition detached : CounterAndScanner actuator Z Z :=
  set_wavelength_controller None (fresh 0 10).

(** [started] with the sweep index past the budget. *)
Definition exhausted : CounterAndScanner actuator Z Z :=
  set_current_t 101 started.

(** Calls that leave [set_scan_range] out. *)
Definition other_calls : list (call Z) :=
  [CallSetToStartingPosition Z; CallStart Z; CallScanV Z; CallMoveV Z;
   CallGoToV Z 3; CallSetStepSize Z 2; CallReset Z; CallStop Z].

(** Calls made to try and revive a run. *)
Definition revival_calls : list (call Z) :=
  [CallStop Z; CallReset Z; CallSetToStartingPosition Z; CallStart Z].

End Stub.

(** * Properties *)

Section Properties.

Variables A C R : Type.
Variable wc : WavelengthController A.
Variable rc : RateCounter C R.

Local Open Scope float_scope.

(** ** Generic facts about the monad *)

Lemma bind_Return_inv (St X Y : Type) (m : M St X) (k : X -> M St Y) s y s' :
  bind m k s = (Return y, s') ->
  exists x s1, m s = (Return x, s1) /\ k x s1 = (Return y, s').
Proof.
  unfold bind. destruct (m s) as [[x | e] s1]; intros H.
  - exists x, s1. split; [reflexivity | exact H].
  - discriminate H.
Qed.

Lemma keeps_ret (St X F : Type) (f : St -> F) (x : X) : keeps f (ret x).
Proof. intros s. reflexivity. Qed.

Lemma keeps_raise (St X F : Type) (f : St -> F) (e : exn) : keeps f (@raise St X e).
Proof. intros s. reflexivity. Qed.

Lemma keeps_attr (St X F : Type) (f : St -> F) (g : St -> X) : keeps f (attr g).
Proof. intros s. reflexivity. Qed.

Lemma keeps_assign (St F : Type) (f : St -> F) (g : St -> St) :
  (forall s, f (g s) = f s) -> keeps f (assign g).
Proof. intros H s. apply H. Qed.

Lemma keeps_bind (St X Y F : Type) (f : St -> F) (m : M St X) (k : X -> M St Y) :
  keeps f m -> (forall x, keeps f (k x)) -> keeps f (bind m k).
Proof.
  intros Hm Hk s. unfold bind.
  specialize (Hm s). destruct (m s) as [[x | e] s1]; cbn in *.
  - rewrite (Hk x s1). exact Hm.
  - exact Hm.
Qed.

Lemma keeps_when (St F : Type) (f : St -> F) (b : bool) (m : M St unit) :
  keeps f m -> keeps f (when b m).
Proof. intros Hm. destruct b; [exact Hm | apply keeps_ret]. Qed.

Lemma keeps_try_except (St F : Type) (f : St -> F) (m : M St unit) h :
  keeps f m -> (forall e, keeps f (h e)) -> keeps f (try_except_ValueError m h).
Proof.
  intros Hm Hh s. unfold try_except_ValueError.
  specialize (Hm s). destruct (m s) as [[x | e] s1]; cbn in *.
  - exact Hm.
  - destruct (is_ValueError e); cbn; [rewrite (Hh e s1) |]; exact Hm.
Qed.

Lemma keeps_map_M (St X Y F : Type) (f : St -> F) (g : X -> M St Y) (l : list X) :
  (forall x, keeps f (g x)) -> keeps f (map_M g l).
Proof.
  intros Hg. induction l as [| x l IH]; cbn [map_M].
  - apply keeps_ret.
  - apply keeps_bind; [apply Hg | intros y].
    apply keeps_bind; [exact IH | intros ys; apply keeps_ret].
Qed.

Lemma keeps_repeat_M (St F : Type) (f : St -> F) (m : M St unit) (n : nat) :
  keeps f m -> keeps f (repeat_M n m).
Proof.
  intros Hm. induction n as [| n IH]; cbn [repeat_M].
  - apply keeps_ret.
  - apply keeps_bind; [exact Hm | intros _; exact IH].
Qed.

(** ** What the calls to the collaborators leave alone

    Facts about observations that are [device_blind]. *)

Section Blind.

Variable F : Type.
Variable f : CounterAndScanner A C R -> F.
Hypothesis Hf : device_blind f.

Lemma keeps_emit ev : keeps f (emit (A:=A) (C:=C) ev).
Proof. intros s. cbn. apply (blind_trace Hf). Qed.

Lemma keeps_logger_info msg : keeps f (logger_info (A:=A) (C:=C) msg).
Proof. apply keeps_emit. Qed.

Lemma keeps_time_sleep t : keeps f (time_sleep (A:=A) (C:=C) (R:=R) t).
Proof.
  unfold time_sleep. destruct (sleep_outcome t); [apply keeps_raise | apply keeps_emit].
Qed.

Lemma keeps_wc_call name ev op : keeps f (wc_call (C:=C) name ev op).
Proof.
  intros s. unfold wc_call. destruct (wavelength_controller s) as [a |]; [| reflexivity].
  destruct (op a) as [r a']. cbn. rewrite (blind_wc Hf). apply (blind_trace Hf).
Qed.

Lemma keeps_wc_read (X : Type) name (g : A -> X) : keeps f (wc_read (C:=C) (R:=R) name g).
Proof.
  intros s. unfold wc_read. destruct (wavelength_controller s); reflexivity.
Qed.

Lemma keeps_wc_check v : keeps f (wc_check_allowed_position (C:=C) (R:=R) wc v).
Proof.
  intros s. unfold wc_check_allowed_position.
  destruct (wavelength_controller s); reflexivity.
Qed.

Lemma keeps_rc_call (X : Type) ev (op : C -> outcome X * C) : keeps f (rc_call (A:=A) ev op).
Proof.
  intros s. unfold rc_call. destruct (op (rate_counter s)) as [r c']. cbn.
  rewrite (blind_rc Hf). apply (blind_trace Hf).
Qed.

Lemma keeps_rc_cmd ev op : keeps f (rc_cmd (A:=A) ev op).
Proof.
  intros s. unfold rc_cmd. destruct (op (rate_counter s)) as [r c']. cbn.
  rewrite (blind_rc Hf). apply (blind_trace Hf).
Qed.

Lemma keeps_read_current_v : keeps f (read_current_v (A:=A) (C:=C) (R:=R)).
Proof. intros s. unfold read_current_v. destruct (current_v s); reflexivity. Qed.

Lemma keeps_np_arange lo hi step : keeps f (np_arange (A:=A) (C:=C) (R:=R) lo hi step).
Proof. intros s. reflexivity. Qed.

Lemma keeps_sample_counts : keeps f (sample_counts rc).
Proof.
  unfold sample_counts. apply keeps_bind; [apply keeps_attr | intros n].
  apply keeps_rc_call.
Qed.

Lemma keeps_sample_count_rate d : keeps f (sample_count_rate rc d).
Proof.
  unfold sample_count_rate. apply keeps_bind.
  - destruct d; [apply keeps_ret | apply keeps_sample_counts].
  - intros data. apply keeps_rc_call.
Qed.

Lemma keeps_scan_axis_loop axis vals raw : keeps f (scan_axis_loop wc rc axis vals raw).
Proof.
  revert raw. induction vals as [| val vals IH]; intros raw; cbn [scan_axis_loop].
  - apply keeps_ret.
  - apply keeps_bind; [apply keeps_attr | intros present].
    apply keeps_bind.
    { apply keeps_when. apply keeps_bind; [apply keeps_logger_info | intros _].
      apply keeps_wc_call. }
    intros _. apply keeps_bind; [apply keeps_sample_counts | intros r].
    apply keeps_bind; [apply keeps_logger_info | intros _].
    apply keeps_bind; [apply keeps_attr | intros present'].
    apply keeps_bind.
    { apply keeps_when. apply keeps_bind; [apply keeps_wc_read | intros cur].
      apply keeps_logger_info. }
    intros _. apply IH.
Qed.

Lemma keeps_scan_axis axis lo hi step : keeps f (scan_axis wc rc axis lo hi step).
Proof.
  unfold scan_axis.
  apply keeps_bind; [apply keeps_wc_call | intros _].
  apply keeps_bind; [apply keeps_attr | intros pause].
  apply keeps_bind; [apply keeps_time_sleep | intros _].
  apply keeps_bind; [apply keeps_np_arange | intros vals].
  apply keeps_scan_axis_loop.
Qed.

End Blind.

(** ** [reset] *)

(** C7. [reset] empties [scanned_raw_counts] and [scanned_count_rate] and
    changes no other field of the controller: the sweep index, the current
    position, [running], the scan range, the step size, the collaborators and
    the trace are what they were. *)
Theorem reset_clears_only_the_results (s : CounterAndScanner A C R) :
  reset s = (Return tt, set_scanned_count_rate [] (set_scanned_raw_counts [] s)) /\
  let s' := snd (reset s) in
  scanned_raw_counts s' = [] /\
  scanned_count_rate s' = [] /\
  current_t s' = current_t s /\
  current_v s' = current_v s /\
  running s' = running s /\
  vmin s' = vmin s /\
  vmax s' = vmax s /\
  _step_size s' = _step_size s /\
  tmax s' = tmax s /\
  raster_line_pause s' = raster_line_pause s /\
  num_daq_batches s' = num_daq_batches s /\
  wavelength_controller s' = wavelength_controller s /\
  rate_counter s' = rate_counter s /\
  trace s' = trace s.
Proof.
  split; [reflexivity |].
  cbn. repeat split.
Qed.

(** ** [still_scanning] *)

(** C8. When [running] is false, [still_scanning] returns [False] and leaves
    the whole controller as it was; in particular [current_t] and [running]. *)
Theorem still_scanning_stopped_is_a_read (s : CounterAndScanner A C R) :
  running s = false ->
  still_scanning s = (Return false, s) /\
  current_t (snd (still_scanning s)) = current_t s /\
  running (snd (still_scanning s)) = running s.
Proof.
  intros Hrun.
  assert (E : still_scanning s = (Return false, s)).
  { unfold still_scanning, bind, attr. rewrite Hrun. reflexivity. }
  rewrite E. repeat split.
Qed.

Lemma still_scanning_in_budget (s : CounterAndScanner A C R) :
  running s = true -> (current_t s <= tmax s)%Z ->
  still_scanning s = (Return true, s).
Proof.
  intros Hrun Hle. unfold still_scanning, bind, attr. rewrite Hrun. cbn.
  apply Z.leb_le in Hle. rewrite Hle. reflexivity.
Qed.

Lemma still_scanning_exhausted (s : CounterAndScanner A C R) :
  (tmax s < current_t s)%Z ->
  fst (still_scanning s) = Return false /\
  running (snd (still_scanning s)) = false.
Proof.
  intros Hlt. unfold still_scanning, bind, attr.
  destruct (running s) eqn:Hrun; cbn.
  - apply Z.leb_gt in Hlt. rewrite Hlt. cbn. split; reflexivity.
  - split; [reflexivity | exact Hrun].
Qed.

(** ** [set_scan_range] and [get_scan_range] *)

Lemma set_scan_range_unchecked (s : CounterAndScanner A C R) lo hi :
  wc_present wc s = false ->
  set_scan_range wc lo hi s = (Return tt, set_vmax hi (set_vmin lo s)).
Proof.
  intros Habs. unfold set_scan_range, bind, attr. rewrite Habs. reflexivity.
Qed.

Lemma set_scan_range_checked (s : CounterAndScanner A C R) a lo hi :
  wavelength_controller s = Some a -> wc_bool wc a = true ->
  set_scan_range wc lo hi s =
  match check_allowed_position wc a lo with
  | Some e => (Raise e, s)
  | None =>
      match check_allowed_position wc a hi with
      | Some e => (Raise e, s)
      | None => (Return tt, set_vmax hi (set_vmin lo s))
      end
  end.
Proof.
  intros Ha Ht.
  unfold set_scan_range, bind, attr, wc_present. rewrite Ha, Ht. cbn.
  unfold wc_check_allowed_position, bind. rewrite Ha.
  destruct (check_allowed_position wc a lo); cbn; [reflexivity |].
  rewrite Ha. destruct (check_allowed_position wc a hi); reflexivity.
Qed.

(** C2. With a wavelength controller present, when the allowed-position check
    rejects either bound, [set_scan_range] raises the exception of the check
    that failed, and the controller, its stored range included, is unchanged. *)
Theorem set_scan_range_rejected (s : CounterAndScanner A C R) a lo hi :
  wavelength_controller s = Some a -> wc_bool wc a = true ->
  check_allowed_position wc a lo <> None \/ check_allowed_position wc a hi <> None ->
  exists e,
    set_scan_range wc lo hi s = (Raise e, s) /\
    (check_allowed_position wc a lo = Some e \/ check_allowed_position wc a hi = Some e) /\
    get_scan_range (snd (set_scan_range wc lo hi s)) = (Return (vmin s, vmax s), s).
Proof.
  intros Ha Ht Hrej.
  rewrite (set_scan_range_checked s lo hi Ha Ht).
  destruct (check_allowed_position wc a lo) as [e1 |] eqn:E1.
  - exists e1. repeat split. left; reflexivity.
  - destruct (check_allowed_position wc a hi) as [e2 |] eqn:E2.
    + exists e2. repeat split. right; reflexivity.
    + destruct Hrej as [H | H]; contradiction H; reflexivity.
Qed.

(** C3. When the allowed-position check accepts both bounds, [set_scan_range]
    returns normally and [get_scan_range] then returns exactly the pair that
    was set. *)
Theorem get_scan_range_after_set (s : CounterAndScanner A C R) a lo hi :
  wavelength_controller s = Some a ->
  check_allowed_position wc a lo = None ->
  check_allowed_position wc a hi = None ->
  exists s',
    set_scan_range wc lo hi s = (Return tt, s') /\
    get_scan_range s' = (Return (lo, hi), s').
Proof.
  intros Ha Hlo Hhi.
  exists (set_vmax hi (set_vmin lo s)). split; [| reflexivity].
  destruct (wc_bool wc a) eqn:Ht.
  - rewrite (set_scan_range_checked s lo hi Ha Ht), Hlo, Hhi. reflexivity.
  - apply set_scan_range_unchecked. unfold wc_present. rewrite Ha. exact Ht.
Qed.

(** C9. With the wavelength controller absent ([None], or an object that is
    false), [set_scan_range] validates nothing: whatever the check would say,
    and for any two values, [min > max] included, it returns normally and
    stores the pair. *)
Theorem set_scan_range_without_controller (s : CounterAndScanner A C R) lo hi :
  wc_present wc s = false ->
  set_scan_range wc lo hi s = (Return tt, set_vmax hi (set_vmin lo s)) /\
  get_scan_range (snd (set_scan_range wc lo hi s)) =
    (Return (lo, hi), set_vmax hi (set_vmin lo s)).
Proof.
  intros Habs. rewrite (set_scan_range_unchecked s lo hi Habs). split; reflexivity.
Qed.

(** ** [move_v] *)

Lemma new_events_app (s s' : CounterAndScanner A C R) evs :
  trace s' = trace s ++ evs -> new_events s s' = evs.
Proof.
  intros E. unfold new_events. rewrite E.
  rewrite List.skipn_app, List.skipn_all, Nat.sub_diag. reflexivity.
Qed.

Lemma new_events_same (s s' : CounterAndScanner A C R) :
  trace s' = trace s -> new_events s s' = [].
Proof.
  intros E. apply new_events_app. rewrite E, List.app_nil_r. reflexivity.
Qed.

Lemma move_v_unfold (s : CounterAndScanner A C R) v :
  current_v s = Some v ->
  move_v wc s =
  let v' := v + _step_size s in
  let s1 := set_current_v (Some v') s in
  when (wc_present wc s && (v' <=? vmax s))
    (try_except_ValueError
       (wc_call "go_to_position" (EvGoToPosition "v" v') (go_to_position wc "v" v'))
       (fun e => logger_info (MsgOutOfRange e))) s1.
Proof.
  intros Hv. unfold move_v, bind, read_current_v, attr, assign. rewrite Hv. reflexivity.
Qed.

(** C1, as the code has it. [move_v] advances [current_v] by [_step_size], and
    it commands the wavelength controller to the new position exactly when a
    controller is present and the new position is at most [vmax]: the lower
    bound [vmin] is not looked at.  Without a command the call returns
    normally and changes nothing but [current_v].  For a new position at or
    above [vmin] this is the test of both bounds. *)
Theorem move_v_steps_and_commands (s : CounterAndScanner A C R) v :
  current_v s = Some v ->
  let v' := v + _step_size s in
  let s' := snd (move_v wc s) in
  current_v s' = Some v' /\
  commanded (new_events s s') =
    (if wc_present wc s && (v' <=? vmax s) then [v'] else []) /\
  (wc_present wc s && (v' <=? vmax s) = false ->
   move_v wc s = (Return tt, set_current_v (Some v') s)) /\
  ((vmin s <=? v') = true ->
   commanded (new_events s s') =
     (if wc_present wc s && within_scan_range s v' then [v'] else [])).
Proof.
  intros Hv. cbv zeta.
  enough (H : current_v (snd (move_v wc s)) = Some (v + _step_size s) /\
              commanded (new_events s (snd (move_v wc s))) =
                (if wc_present wc s && (v + _step_size s <=? vmax s)
                 then [v + _step_size s] else []) /\
              (wc_present wc s && (v + _step_size s <=? vmax s) = false ->
               move_v wc s = (Return tt, set_current_v (Some (v + _step_size s)) s))).
  { destruct H as (H1 & H2 & H3). repeat split; try assumption.
    intros Hlo. unfold within_scan_range. rewrite Hlo. exact H2. }
  rewrite (move_v_unfold s Hv). cbv zeta.
  destruct (wc_present wc s && (v + _step_size s <=? vmax s)) eqn:Hc; cbn [when].
  - unfold try_except_ValueError, wc_call. cbn [wavelength_controller set_current_v].
    apply andb_prop in Hc. destruct Hc as [Hp _]. unfold wc_present in Hp.
    destruct (wavelength_controller s) as [a |]; [| discriminate Hp].
    destruct (go_to_position wc "v" (v + _step_size s) a) as [[e |] a']; cbn.
    + destruct (is_ValueError e); cbn.
      * split; [reflexivity |]. split; [| discriminate].
        erewrite new_events_app; [| cbn; rewrite <- List.app_assoc; reflexivity].
        reflexivity.
      * split; [reflexivity |]. split; [| discriminate].
        erewrite new_events_app; [| cbn; reflexivity]. reflexivity.
    + split; [reflexivity |]. split; [| discriminate].
      erewrite new_events_app; [| cbn; reflexivity]. reflexivity.
  - cbn. split; [reflexivity |]. split; [| reflexivity].
    rewrite new_events_same; reflexivity.
Qed.

(** C6. When the wavelength controller rejects the move that [move_v]
    commands with a [ValueError], [move_v] returns normally: the error is
    logged with [logger.info] and goes no further, and [current_v] is the old
    position plus [_step_size]. *)
Theorem move_v_swallows_rejection (s : CounterAndScanner A C R) v a msg a' :
  current_v s = Some v ->
  wavelength_controller s = Some a ->
  wc_bool wc a = true ->
  (v + _step_size s <=? vmax s) = true ->
  go_to_position wc "v" (v + _step_size s) a = (Some (ValueError msg), a') ->
  let s' := snd (move_v wc s) in
  fst (move_v wc s) = Return tt /\
  current_v s' = Some (v + _step_size s) /\
  new_events s s' =
    [EvGoToPosition "v" (v + _step_size s); EvLogInfo (MsgOutOfRange (ValueError msg))] /\
  wavelength_controller s' = Some a'.
Proof.
  intros Hv Ha Ht Hle Hgo. cbv zeta. rewrite (move_v_unfold s Hv). cbv zeta.
  unfold wc_present. rewrite Ha, Ht, Hle. cbn [andb when].
  unfold try_except_ValueError, wc_call. cbn [wavelength_controller set_current_v].
  rewrite Ha, Hgo. cbn.
  repeat split.
  apply new_events_app. cbn. rewrite <- List.app_assoc. reflexivity.
Qed.

(** ** [current_v] before [set_to_starting_position] *)

Lemma blind_current_v : device_blind (current_v (A:=A) (C:=C) (R:=R)).
Proof. split; reflexivity. Qed.

Ltac keeps_tac Hf :=
  repeat first
    [ apply keeps_ret
    | apply keeps_attr
    | apply keeps_raise
    | apply keeps_assign; intros ?; reflexivity
    | apply (keeps_logger_info Hf)
    | apply (keeps_emit Hf)
    | apply (keeps_time_sleep Hf)
    | apply (keeps_wc_call Hf)
    | apply keeps_wc_read
    | apply keeps_wc_check
    | apply (keeps_rc_call Hf)
    | apply (keeps_rc_cmd Hf)
    | apply keeps_read_current_v
    | apply (keeps_sample_counts Hf)
    | apply (keeps_sample_count_rate Hf)
    | apply (keeps_scan_axis Hf)
    | apply keeps_map_M; intros ?
    | apply keeps_when
    | apply keeps_try_except; [| intros ?]
    | match goal with |- keeps _ (match ?x with _ => _ end) => destruct x end
    | apply keeps_bind; [| intros ?] ].

Ltac by_keeps :=
  match goal with
  | |- ?f (snd (?m ?s)) = ?f ?s => refine ((_ : keeps f m) s)
  end.

Lemma after_call_keeps_current_v_unset (c : call R) (s : CounterAndScanner A C R) :
  is_set_to_starting_position c = false ->
  current_v s = None ->
  current_v (after_call wc rc c s) = None.
Proof.
  intros Hc Hs. rewrite <- Hs.
  destruct c; cbn [after_call]; try discriminate Hc.
  - by_keeps. unfold stop. keeps_tac blind_current_v.
  - by_keeps. unfold start. keeps_tac blind_current_v.
  - by_keeps. unfold close. keeps_tac blind_current_v.
  - reflexivity.
  - by_keeps. keeps_tac blind_current_v.
  - by_keeps. keeps_tac blind_current_v.
  - by_keeps. unfold set_scan_range. keeps_tac blind_current_v.
  - reflexivity.
  - by_keeps. unfold get_completed_scan_range. keeps_tac blind_current_v.
  - by_keeps. unfold still_scanning. keeps_tac blind_current_v.
  - unfold move_v, bind, read_current_v. rewrite Hs. cbn. exact Hs.
  - by_keeps. unfold go_to_v. keeps_tac blind_current_v.
  - by_keeps. unfold scan_v. keeps_tac blind_current_v.
  - by_keeps. keeps_tac blind_current_v.
  - reflexivity.
  - reflexivity.
  - reflexivity.
  - reflexivity.
Qed.

Lemma after_calls_keep_current_v_unset (cs : list (call R)) (s : CounterAndScanner A C R) :
  existsb (@is_set_to_starting_position R) cs = false ->
  current_v s = None ->
  current_v (after_calls wc rc cs s) = None.
Proof.
  revert s. induction cs as [| c cs IH]; intros s Hcs Hs; cbn in *.
  - exact Hs.
  - apply orb_false_elim in Hcs. destruct Hcs as [Hc Hcs].
    apply IH; [exact Hcs |].
    apply after_call_keeps_current_v_unset; assumption.
Qed.

Lemma set_to_starting_position_defines_current_v (s : CounterAndScanner A C R) :
  let s1 := snd (set_to_starting_position wc s) in
  current_v s1 = Some (vmin s) /\ vmin s1 = vmin s /\ vmax s1 = vmax s.
Proof.
  cbv zeta. unfold set_to_starting_position, bind, attr, assign. cbn.
  destruct (wc_present wc (set_current_v (Some (vmin s)) s)); cbn; [| repeat split].
  unfold wc_call. cbn.
  destruct (wavelength_controller s) as [a |]; cbn; [| repeat split].
  destruct (go_to_voltage wc "v" (vmin s) a) as [r a']. cbn. repeat split.
Qed.

(** C10. The constructor does not assign [current_v].  On the object it
    builds, and after any calls of methods other than
    [set_to_starting_position], both [get_completed_scan_range] and [move_v]
    raise [AttributeError] and change nothing.  [set_to_starting_position]
    assigns [vmin] to [current_v], also when the move it commands raises, and
    [get_completed_scan_range] then returns [(vmin, vmax, vmin)]. *)
Theorem current_v_unset_until_starting_position (c : C) (a : A) (cs : list (call R)) :
  existsb (@is_set_to_starting_position R) cs = false ->
  let s := after_calls wc rc cs (constructed R wc c a) in
  __init__ R wc c (Some a) = Return (constructed R wc c a) /\
  current_v (constructed R wc c a) = None /\
  get_completed_scan_range s = (Raise (AttributeError "current_v"), s) /\
  move_v wc s = (Raise (AttributeError "current_v"), s) /\
  let s1 := snd (set_to_starting_position wc s) in
  current_v s1 = Some (vmin s) /\
  get_completed_scan_range s1 = (Return (vmin s, vmax s, vmin s), s1).
Proof.
  intros Hcs. cbv zeta.
  assert (Hs : current_v (after_calls wc rc cs (constructed R wc c a)) = None).
  { apply after_calls_keep_current_v_unset; [exact Hcs | reflexivity]. }
  set (s := after_calls wc rc cs (constructed R wc c a)) in *.
  split; [reflexivity |]. split; [reflexivity |].
  split.
  { unfold get_completed_scan_range, bind, attr, read_current_v. rewrite Hs. reflexivity. }
  split.
  { unfold move_v, bind, read_current_v. rewrite Hs. reflexivity. }
  destruct (set_to_starting_position_defines_current_v s) as (Hv & Hlo & Hhi).
  split; [exact Hv |].
  unfold get_completed_scan_range, bind, attr, read_current_v.
  rewrite Hv, Hlo, Hhi. reflexivity.
Qed.

(** ** [numpy.arange] *)

Lemma fill_length start delta i n : List.length (Numpy.fill start delta i n) = n.
Proof.
  revert i. induction n as [| n IH]; intros i; cbn; [reflexivity |].
  rewrite IH. reflexivity.
Qed.

Lemma arange_values_length start step len :
  List.length (Numpy.arange_values start step len) = Z.to_nat len.
Proof.
  unfold Numpy.arange_values.
  destruct (len <=? 0)%Z eqn:E0.
  - apply Z.leb_le in E0. cbn. lia.
  - apply Z.leb_gt in E0. destruct (len =? 1)%Z eqn:E1.
    + apply Z.eqb_eq in E1. subst len. reflexivity.
    + apply Z.eqb_neq in E1. cbn [List.length]. rewrite fill_length. lia.
Qed.

(** What [np.arange] returns: the values for the length NumPy computes, which
    is the ceiling of the binary64 quotient [(stop - start) / step], except
    for a zero quotient with [stop - start] not zero, where it is 1 for [+0]
    and 0 for [-0]. *)
Lemma arange_returns start stop step vals :
  Numpy.arange start stop step = Return vals ->
  exists q,
    Numpy.ceil (PrimFloat.div (PrimFloat.sub stop start) step) = Some q /\
    let len :=
      if Numpy.zero_quotient start stop step
      then (if Numpy.signbit (PrimFloat.div (PrimFloat.sub stop start) step) then 0 else 1)%Z
      else q in
    vals = Numpy.arange_values start step len /\
    List.length vals = Z.to_nat len.
Proof.
  unfold Numpy.arange, Numpy.calc_length.
  destruct (PrimFloat.eqb step PrimFloat.zero); [discriminate |].
  destruct (Numpy.is_nan _); [discriminate |].
  destruct (Numpy.ceil _) as [q |]; [| discriminate].
  destruct ((q <? - 2 ^ 63)%Z || (2 ^ 63 <? q)%Z); [discriminate |].
  intros H. exists q. split; [reflexivity |]. cbv zeta.
  destruct (Numpy.zero_quotient start stop step);
    inversion H; subst; (split; [reflexivity | apply arange_values_length]).
Qed.

(** ** Observations of a trace *)

Lemma commanded_app (evs1 evs2 : list (event R)) :
  commanded (evs1 ++ evs2) = commanded evs1 ++ commanded evs2.
Proof.
  induction evs1 as [| ev evs1 IH]; cbn; [reflexivity |].
  destruct ev; cbn; rewrite IH; reflexivity.
Qed.

(** ** [scan_v] and the sweep budget *)

Lemma blind_current_t : device_blind (current_t (A:=A) (C:=C) (R:=R)).
Proof. split; reflexivity. Qed.

Lemma blind_tmax : device_blind (tmax (A:=A) (C:=C) (R:=R)).
Proof. split; reflexivity. Qed.

Lemma blind_vmin : device_blind (vmin (A:=A) (C:=C) (R:=R)).
Proof. split; reflexivity. Qed.

Lemma blind_vmax : device_blind (vmax (A:=A) (C:=C) (R:=R)).
Proof. split; reflexivity. Qed.

Lemma blind_step_size : device_blind (_step_size (A:=A) (C:=C) (R:=R)).
Proof. split; reflexivity. Qed.

Lemma blind_raster_line_pause : device_blind (raster_line_pause (A:=A) (C:=C) (R:=R)).
Proof. split; reflexivity. Qed.

(** [scan_v] leaves alone what reads neither the devices, nor the results,
    nor the sweep index. *)
Lemma keeps_scan_v (F : Type) (f : CounterAndScanner A C R -> F) :
  device_blind f ->
  (forall x s, f (set_scanned_raw_counts x s) = f s) ->
  (forall x s, f (set_scanned_count_rate x s) = f s) ->
  (forall x s, f (set_current_t x s) = f s) ->
  keeps f (scan_v wc rc).
Proof.
  intros Hf Hraw Hrate Ht. unfold scan_v.
  apply keeps_bind; [apply keeps_attr | intros lo].
  apply keeps_bind; [apply keeps_attr | intros hi].
  apply keeps_bind; [apply keeps_attr | intros step].
  apply keeps_bind; [apply (keeps_scan_axis Hf) | intros raw].
  apply keeps_bind; [apply keeps_assign; intros s; apply Hraw | intros _].
  apply keeps_bind.
  { apply keeps_map_M. intros r. apply (keeps_sample_count_rate Hf). }
  intros rates.
  apply keeps_bind; [apply keeps_assign; intros s; apply Hrate | intros _].
  apply keeps_assign; intros s; apply Ht.
Qed.

Ltac bind_inv H :=
  let x := fresh "x" in
  let s1 := fresh "s" in
  let E := fresh "E" in
  apply bind_Return_inv in H; destruct H as (x & s1 & E & H).

(** A sweep that returns has incremented [current_t] by one. *)
Lemma scan_v_counts_sweep (s s' : CounterAndScanner A C R) :
  scan_v wc rc s = (Return tt, s') ->
  current_t s' = (current_t s + 1)%Z.
Proof.
  unfold scan_v. intros H.
  bind_inv H. inversion E; subst; clear E.
  bind_inv H. inversion E; subst; clear E.
  bind_inv H. inversion E; subst; clear E.
  bind_inv H.
  pose proof (keeps_scan_axis blind_current_t "v" (vmin s0) (vmax s0) (_step_size s0) s0) as K1.
  rewrite E in K1. cbn [snd] in K1. clear E.
  bind_inv H. inversion E; subst; clear E.
  bind_inv H.
  match type of E with
  | map_M ?g ?l ?st = _ =>
      pose proof (@keeps_map_M _ _ _ _ (current_t (A:=A) (C:=C) (R:=R)) g l
                    (fun r => keeps_sample_count_rate blind_current_t (Some r)) st) as K2
  end.
  rewrite E in K2. cbn [snd] in K2. clear E.
  bind_inv H. inversion E; subst; clear E.
  inversion H; subst; clear H.
  cbn. cbn in K2. rewrite K2, K1. reflexivity.
Qed.

Lemma sweeps_count (n : nat) (s s' : CounterAndScanner A C R) :
  repeat_M n (scan_v wc rc) s = (Return tt, s') ->
  current_t s' = (current_t s + Z.of_nat n)%Z /\ tmax s' = tmax s.
Proof.
  revert s. induction n as [| n IH]; intros s H.
  - inversion H; subst. split; [lia | reflexivity].
  - cbn [repeat_M] in H. bind_inv H. destruct x.
    destruct (IH _ H) as [Ht Hm].
    pose proof (@keeps_scan_v _ (tmax (A:=A) (C:=C) (R:=R)) blind_tmax
                  (fun _ _ => eq_refl) (fun _ _ => eq_refl) (fun _ _ => eq_refl) s) as K.
    rewrite E in K. cbn [snd] in K.
    rewrite (@scan_v_counts_sweep s s0 E) in Ht.
    split; [lia | congruence].
Qed.

(** ** [scan_axis] with collaborators that do not raise *)

Section WellBehaved.

Hypothesis wc_truthy : forall a, wc_bool wc a = true.
Hypothesis go_to_voltage_returns : forall kw v a, fst (go_to_voltage wc kw v a) = None.
Hypothesis sample_counts_returns :
  forall n c, returned (fst (rc_sample_counts rc n c)) = true.
Hypothesis sample_count_rate_returns :
  forall r c, returned (fst (rc_sample_count_rate rc r c)) = true.

(** One turn of the loop: the move, the sample and the three log lines. *)
Lemma scan_axis_loop_turn axis val vals raw (s : CounterAndScanner A C R) :
  wavelength_controller s <> None ->
  exists r cur s1,
    scan_axis_loop wc rc axis (val :: vals) raw s =
      scan_axis_loop wc rc axis vals (raw ++ [r]) s1 /\
    wavelength_controller s1 <> None /\
    trace s1 = trace s ++
      [EvLogInfo (MsgGoToVoltage axis val); EvGoToVoltage axis val;
       EvSampleCounts (num_daq_batches s) (Some r); EvLogInfo (MsgRawCounts r);
       EvLogInfo (MsgCurrentVoltage cur)].
Proof.
  intros Hwc. destruct (wavelength_controller s) as [a |] eqn:Ha; [| contradiction Hwc; reflexivity].
  cbn [scan_axis_loop].
  unfold bind at 1. unfold attr at 1. unfold wc_present at 1. rewrite Ha, wc_truthy.
  unfold bind at 1. cbn [when].
  unfold bind at 1. unfold logger_info at 1, emit at 1, assign at 1.
  unfold wc_call at 1. cbn [wavelength_controller set_trace].
  rewrite Ha.
  pose proof (go_to_voltage_returns axis val a) as Hgo.
  destruct (go_to_voltage wc axis val a) as [r0 a']. cbn in Hgo. subst r0.
  cbn [of_option_exn].
  unfold bind at 1. unfold sample_counts at 1.
  unfold bind at 1. unfold attr at 1. unfold rc_call at 1.
  cbn [rate_counter num_daq_batches set_wavelength_controller set_trace trace].
  pose proof (sample_counts_returns (num_daq_batches s) (rate_counter s)) as Hsm.
  destruct (rc_sample_counts rc (num_daq_batches s) (rate_counter s)) as [[r | e] c'];
    cbn in Hsm; [| discriminate Hsm].
  cbn [value_of].
  unfold bind at 1. unfold logger_info at 1, emit at 1, assign at 1.
  unfold bind at 1. unfold attr at 1. unfold wc_present at 1.
  cbn [wavelength_controller set_rate_counter set_wavelength_controller set_trace trace].
  rewrite wc_truthy. unfold bind at 1. cbn [when].
  unfold bind at 1. unfold wc_read at 1.
  cbn [wavelength_controller set_rate_counter set_wavelength_controller set_trace trace].
  unfold logger_info at 1, emit at 1, assign at 1.
  cbn [wavelength_controller set_rate_counter set_wavelength_controller set_trace trace].
  eexists r, (get_current_voltage wc a'), _.
  split; [reflexivity |]. cbn. split; [discriminate |].
  repeat rewrite <- List.app_assoc. reflexivity.
Qed.

(** The loop visits the values it is given, in order, and samples once at
    each: whatever was commanded before, sample [i] is taken with the
    controller commanded to value [i]. *)
Lemma scan_axis_loop_visits axis vals raw (s : CounterAndScanner A C R) :
  wavelength_controller s <> None ->
  exists rs s' evs,
    scan_axis_loop wc rc axis vals raw s = (Return (raw ++ rs), s') /\
    wavelength_controller s' <> None /\
    trace s' = trace s ++ evs /\
    commanded evs = vals /\
    (forall at_, sampled at_ evs = List.combine (List.map Some vals) rs) /\
    List.length rs = List.length vals.
Proof.
  revert raw s. induction vals as [| val vals IH]; intros raw s Hwc.
  - exists [], s, []. cbn. rewrite !List.app_nil_r. repeat split. exact Hwc.
  - destruct (scan_axis_loop_turn axis val vals raw s Hwc) as (r & cur & s1 & Hturn & Hwc1 & Htr1).
    destruct (IH (raw ++ [r]) s1 Hwc1) as (rs & s' & evs & Hrun & Hwc' & Htr & Hcmd & Hsmp & Hlen).
    exists (r :: rs), s'. eexists.
    split. { rewrite Hturn, Hrun, <- List.app_assoc. reflexivity. }
    split; [exact Hwc' |].
    split. { rewrite Htr, Htr1, <- List.app_assoc. reflexivity. }
    split. { cbn. rewrite Hcmd. reflexivity. }
    split. { intros at_. cbn. rewrite Hsmp. reflexivity. }
    cbn. rewrite Hlen. reflexivity.
Qed.

Lemma scan_axis_returns axis lo hi step vals (s : CounterAndScanner A C R) :
  wavelength_controller s <> None ->
  sleep_outcome (raster_line_pause s) = None ->
  Numpy.arange lo hi step = Return vals ->
  exists rs s',
    scan_axis wc rc axis lo hi step s = (Return rs, s') /\
    wavelength_controller s' <> None /\
    commanded (new_events s s') = lo :: vals /\
    sampled None (new_events s s') = List.combine (List.map Some vals) rs /\
    List.length rs = List.length vals.
Proof.
  intros Hwc Hsleep Har.
  destruct (wavelength_controller s) as [a |] eqn:Ha; [| contradiction Hwc; reflexivity].
  unfold scan_axis.
  unfold bind at 1. unfold wc_call at 1. rewrite Ha.
  pose proof (go_to_voltage_returns axis lo a) as Hgo.
  destruct (go_to_voltage wc axis lo a) as [r0 a']. cbn in Hgo. subst r0.
  cbn [of_option_exn].
  unfold bind at 1. unfold attr at 1.
  cbn [raster_line_pause set_wavelength_controller set_trace].
  unfold bind at 1. unfold time_sleep at 1. rewrite Hsleep.
  unfold emit at 1, assign at 1.
  unfold bind at 1. unfold np_arange at 1. rewrite Har.
  match goal with
  | |- context [scan_axis_loop wc rc axis vals [] ?s1] =>
      destruct (@scan_axis_loop_visits axis vals [] s1)
        as (rs & s' & evs & Hrun & Hwc' & Htr & Hcmd & Hsmp & Hlen);
      [cbn; discriminate |]
  end.
  exists rs, s'. rewrite Hrun. cbn [List.app].
  split; [reflexivity |]. split; [exact Hwc' |].
  cbn [trace set_trace set_wavelength_controller] in Htr.
  rewrite (@new_events_app s s'
             ([EvGoToVoltage axis lo; EvSleep (raster_line_pause s)] ++ evs)).
  2: { rewrite Htr, <- !List.app_assoc. reflexivity. }
  cbn. rewrite Hcmd, Hsmp. repeat split. exact Hlen.
Qed.

Lemma count_rates_return raw (s : CounterAndScanner A C R) :
  exists rates s',
    map_M (fun r => sample_count_rate rc (Some r)) raw s = (Return rates, s') /\
    wavelength_controller s' = wavelength_controller s /\
    List.length rates = List.length raw.
Proof.
  revert s. induction raw as [| r raw IH]; intros s.
  - exists [], s. repeat split.
  - cbn [map_M]. unfold bind at 1. unfold sample_count_rate at 1.
    unfold bind at 1, ret at 1. unfold rc_call at 1.
    pose proof (sample_count_rate_returns r (rate_counter s)) as Hr.
    destruct (rc_sample_count_rate rc r (rate_counter s)) as [[y | e] c'];
      cbn in Hr; [| discriminate Hr].
    match goal with
    | |- context [bind (map_M _ raw) _ ?s1] =>
        destruct (IH s1) as (ys & s' & Hrun & Hwc & Hlen)
    end.
    exists (y :: ys), s'. unfold bind at 1. rewrite Hrun. cbn.
    repeat split; [exact Hwc | rewrite Hlen; reflexivity].
Qed.

(** With devices that do not raise, a sweep returns and leaves the
    controller ready for the next one. *)
Lemma scan_v_returns (s : CounterAndScanner A C R) :
  wavelength_controller s <> None ->
  sleep_outcome (raster_line_pause s) = None ->
  returned (Numpy.arange (vmin s) (vmax s) (_step_size s)) = true ->
  exists s',
    scan_v wc rc s = (Return tt, s') /\
    wavelength_controller s' <> None.
Proof.
  intros Hwc Hsleep Har.
  destruct (Numpy.arange (vmin s) (vmax s) (_step_size s)) as [vals | e] eqn:Evals;
    [| discriminate Har].
  destruct (scan_axis_returns "v" (vmin s) (vmax s) (_step_size s) s Hwc Hsleep Evals)
    as (raw & s1 & Hrun & Hwc1 & _).
  unfold scan_v.
  unfold bind at 1, attr at 1. unfold bind at 1, attr at 1. unfold bind at 1, attr at 1.
  unfold bind at 1. rewrite Hrun.
  unfold bind at 1, assign at 1.
  match goal with
  | |- context [bind (map_M _ raw) _ ?s2] =>
      destruct (count_rates_return raw s2) as (rates & s3 & Hrates & Hwc3 & _)
  end.
  unfold bind at 1. rewrite Hrates.
  unfold bind, assign. eexists. split; [reflexivity |].
  cbn. cbn in Hwc3. rewrite Hwc3. exact Hwc1.
Qed.

Lemma sweeps_return (n : nat) (s : CounterAndScanner A C R) :
  wavelength_controller s <> None ->
  sleep_outcome (raster_line_pause s) = None ->
  returned (Numpy.arange (vmin s) (vmax s) (_step_size s)) = true ->
  exists s', repeat_M n (scan_v wc rc) s = (Return tt, s').
Proof.
  revert s. induction n as [| n IH]; intros s Hwc Hsleep Har.
  - exists s. reflexivity.
  - destruct (scan_v_returns s Hwc Hsleep Har) as (s1 & Hrun & Hwc1).
    pose proof (fun F (f : CounterAndScanner A C R -> F) Hf H1 H2 H3 =>
                  @keeps_scan_v F f Hf H1 H2 H3 s) as K.
    rewrite Hrun in K. cbn [snd] in K.
    destruct (IH s1) as (s' & Hrest).
    + exact Hwc1.
    + rewrite (K _ _ blind_raster_line_pause) by reflexivity. exact Hsleep.
    + rewrite (K _ _ blind_vmin), (K _ _ blind_vmax), (K _ _ blind_step_size)
        by reflexivity.
      exact Har.
    + exists s'. cbn [repeat_M]. unfold bind. rewrite Hrun. exact Hrest.
Qed.

End WellBehaved.

(** ** [scan_axis], on the calls it makes *)

(** One turn of the loop, when the controller is true, accepts the move and
    is true again afterwards, and the sample returns. *)
Lemma scan_axis_loop_accepted_turn axis val vals raw (s : CounterAndScanner A C R) a a' r c' :
  wavelength_controller s = Some a ->
  wc_bool wc a = true ->
  go_to_voltage wc axis val a = (None, a') ->
  wc_bool wc a' = true ->
  rc_sample_counts rc (num_daq_batches s) (rate_counter s) = (Return r, c') ->
  exists s1,
    scan_axis_loop wc rc axis (val :: vals) raw s =
      scan_axis_loop wc rc axis vals (raw ++ [r]) s1 /\
    wavelength_controller s1 = Some a' /\
    rate_counter s1 = c' /\
    num_daq_batches s1 = num_daq_batches s /\
    trace s1 = trace s ++
      [EvLogInfo (MsgGoToVoltage axis val); EvGoToVoltage axis val;
       EvSampleCounts (num_daq_batches s) (Some r); EvLogInfo (MsgRawCounts r);
       EvLogInfo (MsgCurrentVoltage (get_current_voltage wc a'))].
Proof.
  intros Ha Hb Hgo Hb' Hsm.
  cbn [scan_axis_loop].
  unfold bind at 1. unfold attr at 1. unfold wc_present at 1. rewrite Ha, Hb.
  unfold bind at 1. cbn [when].
  unfold bind at 1. unfold logger_info at 1, emit at 1, assign at 1.
  unfold wc_call at 1. cbn [wavelength_controller set_trace].
  rewrite Ha, Hgo. cbn [of_option_exn].
  unfold bind at 1. unfold sample_counts at 1.
  unfold bind at 1. unfold attr at 1. unfold rc_call at 1.
  cbn [rate_counter num_daq_batches set_wavelength_controller set_trace trace].
  rewrite Hsm. cbn [value_of].
  unfold bind at 1. unfold logger_info at 1, emit at 1, assign at 1.
  unfold bind at 1. unfold attr at 1. unfold wc_present at 1.
  cbn [wavelength_controller set_rate_counter set_wavelength_controller set_trace trace].
  rewrite Hb'. unfold bind at 1. cbn [when].
  unfold bind at 1. unfold wc_read at 1.
  cbn [wavelength_controller set_rate_counter set_wavelength_controller set_trace trace].
  unfold logger_info at 1, emit at 1, assign at 1.
  cbn [wavelength_controller set_rate_counter set_wavelength_controller set_trace trace].
  eexists. split; [reflexivity |]. cbn.
  repeat split. repeat rewrite <- List.app_assoc. reflexivity.
Qed.

(** The loop over [vals], when each of its moves is accepted and each of its
    samples returns. *)
Lemma scan_axis_loop_accepted axis vals raw (s : CounterAndScanner A C R) a :
  wavelength_controller s = Some a ->
  moves_accepted wc axis a vals = true ->
  samples_returned rc (num_daq_batches s) (rate_counter s) (List.length vals) = true ->
  exists rs s' evs,
    scan_axis_loop wc rc axis vals raw s = (Return (raw ++ rs), s') /\
    trace s' = trace s ++ evs /\
    commanded evs = vals /\
    (forall at_, sampled at_ evs = List.combine (List.map Some vals) rs) /\
    List.length rs = List.length vals.
Proof.
  revert raw s a. induction vals as [| val vals IH]; intros raw s a Ha Hmv Hsm.
  - exists [], s, []. cbn. rewrite !List.app_nil_r. repeat split.
  - cbn [moves_accepted] in Hmv. apply andb_prop in Hmv. destruct Hmv as [Hb Hmv].
    destruct (go_to_voltage wc axis val a) as [[e |] a'] eqn:Hgo; [discriminate Hmv |].
    apply andb_prop in Hmv. destruct Hmv as [Hb' Hmv].
    cbn [List.length samples_returned] in Hsm.
    destruct (rc_sample_counts rc (num_daq_batches s) (rate_counter s)) as [[r | e] c'] eqn:Hr;
      [| discriminate Hsm].
    destruct (scan_axis_loop_accepted_turn axis val vals raw s Ha Hb Hgo Hb' Hr)
      as (s1 & Hturn & Hwc1 & Hrc1 & Hn1 & Htr1).
    destruct (IH (raw ++ [r]) s1 a' Hwc1 Hmv) as (rs & s' & evs & Hrun & Htr & Hcmd & Hsmp & Hlen).
    { rewrite Hn1, Hrc1. exact Hsm. }
    exists (r :: rs), s'. eexists.
    split. { rewrite Hturn, Hrun, <- List.app_assoc. reflexivity. }
    split. { rewrite Htr, Htr1, <- List.app_assoc. reflexivity. }
    split. { cbn. rewrite Hcmd. reflexivity. }
    split. { intros at_. cbn. rewrite Hsmp. reflexivity. }
    cbn. rewrite Hlen. reflexivity.
Qed.

(** C4, as the code has it.  When the first move, to [min], is accepted, the
    sleep and [np.arange] do not raise, and in the loop the controller object
    is true, every move is accepted and every sample returns, then
    [scan_axis] commands the controller to [min], sleeps for
    [raster_line_pause], and then visits exactly the values of
    [np.arange(min, max, step_size)] in order and nothing else: it commands
    the controller to each value, samples once there, and returns the samples
    in that order.  The values are those of NumPy's rule:
    [ceil((max - min) / step_size)] of them, the quotient taken in binary64,
    or one (zero for a quotient [-0]) when the quotient is zero with
    [max - min] not zero.  For [(0.0, 2.0, 0.5)] they are
    [0.0, 0.5, 1.0, 1.5]. *)
Theorem scan_axis_visits_arange axis lo hi step vals (s : CounterAndScanner A C R) a a1 :
  wavelength_controller s = Some a ->
  go_to_voltage wc axis lo a = (None, a1) ->
  sleep_outcome (raster_line_pause s) = None ->
  Numpy.arange lo hi step = Return vals ->
  moves_accepted wc axis a1 vals = true ->
  samples_returned rc (num_daq_batches s) (rate_counter s) (List.length vals) = true ->
  (exists rs s' evs,
     scan_axis wc rc axis lo hi step s = (Return rs, s') /\
     new_events s s' = EvGoToVoltage axis lo :: EvSleep (raster_line_pause s) :: evs /\
     commanded evs = vals /\
     sampled (Some lo) evs = List.combine (List.map Some vals) rs /\
     List.length rs = List.length vals) /\
  (exists q,
     Numpy.ceil (PrimFloat.div (PrimFloat.sub hi lo) step) = Some q /\
     let len :=
       if Numpy.zero_quotient lo hi step
       then (if Numpy.signbit (PrimFloat.div (PrimFloat.sub hi lo) step) then 0 else 1)%Z
       else q in
     vals = Numpy.arange_values lo step len /\
     List.length vals = Z.to_nat len) /\
  Numpy.arange 0 2 0.5 = Return [0; 0.5; 1; 1.5].
Proof.
  intros Ha Hgo Hsleep Har Hmv Hsm.
  split; [| split; [exact (arange_returns lo hi step Har) | reflexivity]].
  unfold scan_axis. unfold bind at 1. unfold wc_call at 1. rewrite Ha, Hgo.
  cbn [of_option_exn].
  unfold bind at 1, attr at 1. cbn [raster_line_pause set_wavelength_controller set_trace].
  unfold bind at 1. unfold time_sleep at 1. rewrite Hsleep.
  unfold emit at 1, assign at 1.
  unfold bind at 1. unfold np_arange at 1. rewrite Har.
  match goal with
  | |- context [scan_axis_loop wc rc axis vals [] ?s1] =>
      destruct (@scan_axis_loop_accepted axis vals [] s1 a1)
        as (rs & s' & evs & Hrun & Htr & Hcmd & Hsmp & Hlen);
      [reflexivity | exact Hmv | exact Hsm |]
  end.
  exists rs, s', evs. rewrite Hrun. cbn [List.app].
  split; [reflexivity |].
  cbn [trace set_trace set_wavelength_controller] in Htr.
  split.
  { apply new_events_app. rewrite Htr, <- !List.app_assoc. reflexivity. }
  split; [exact Hcmd |]. split; [apply Hsmp | exact Hlen].
Qed.

(** C5. After [N] calls of [scan_v] that returned, from [current_t = 0] and
    with [tmax = N - 1], [still_scanning] returns [False] and [running] is
    false afterwards.  With devices that do not raise the [N] calls do
    return. *)
Theorem sweeps_exhaust_budget (N : nat) (s : CounterAndScanner A C R) :
  current_t s = 0%Z ->
  tmax s = (Z.of_nat N - 1)%Z ->
  (forall s',
     repeat_M N (scan_v wc rc) s = (Return tt, s') ->
     fst (still_scanning s') = Return false /\
     running (snd (still_scanning s')) = false) /\
  ((forall a, wc_bool wc a = true) ->
   (forall kw v a, fst (go_to_voltage wc kw v a) = None) ->
   (forall n c, returned (fst (rc_sample_counts rc n c)) = true) ->
   (forall r c, returned (fst (rc_sample_count_rate rc r c)) = true) ->
   wavelength_controller s <> None ->
   sleep_outcome (raster_line_pause s) = None ->
   returned (Numpy.arange (vmin s) (vmax s) (_step_size s)) = true ->
   exists s', repeat_M N (scan_v wc rc) s = (Return tt, s')).
Proof.
  intros Ht Hmax. split.
  - intros s' Hrun. destruct (sweeps_count N s Hrun) as [Ht' Hmax'].
    apply still_scanning_exhausted. lia.
  - intros H1 H2 H3 H4 Hwc Hsleep Har.
    exact (sweeps_return H1 H2 H3 H4 N s Hwc Hsleep Har).
Qed.

(** * Further properties of the methods *)

(** ** More on the monad *)

Lemma bind_Raise_inv (St X Y : Type) (m : M St X) (k : X -> M St Y) s e s' :
  bind m k s = (Raise e, s') ->
  m s = (Raise e, s') \/
  exists x s1, m s = (Return x, s1) /\ k x s1 = (Raise e, s').
Proof.
  unfold bind. destruct (m s) as [[x | e0] s1]; intros H.
  - right. exists x, s1. split; [reflexivity | exact H].
  - left. inversion H; subst. reflexivity.
Qed.

Lemma map_M_length (St X Y : Type) (g : X -> M St Y) (l : list X) s ys s' :
  map_M g l s = (Return ys, s') -> List.length ys = List.length l.
Proof.
  revert s ys s'. induction l as [| x l IH]; intros s ys s' H; cbn [map_M] in H.
  - inversion H; subst. reflexivity.
  - apply bind_Return_inv in H. destruct H as (y & s1 & _ & H).
    apply bind_Return_inv in H. destruct H as (ys0 & s2 & Hrec & H).
    inversion H; subst. cbn. rewrite (IH _ _ _ Hrec). reflexivity.
Qed.

Lemma set_running_same (s : CounterAndScanner A C R) b :
  running s = b -> set_running b s = s.
Proof. destruct s; cbn; intros <-; reflexivity. Qed.

(** ** [still_scanning], in full *)

Lemma still_scanning_value (s : CounterAndScanner A C R) :
  still_scanning s =
  (Return (running s && (current_t s <=? tmax s)%Z),
   set_running (running s && (current_t s <=? tmax s)%Z) s).
Proof.
  unfold still_scanning, bind, attr.
  destruct (running s) eqn:Hr; cbn.
  - destruct (current_t s <=? tmax s)%Z; cbn.
    + rewrite set_running_same by exact Hr. reflexivity.
    + reflexivity.
  - rewrite set_running_same by exact Hr. reflexivity.
Qed.

(** X1. [still_scanning] returns [running and current_t <= tmax], and that
    value is also what [running] is afterwards; nothing else changes.  Asking
    a second time gives the same answer and changes nothing. *)
Theorem still_scanning_returns_running (s : CounterAndScanner A C R) :
  let b := running s && (current_t s <=? tmax s)%Z in
  still_scanning s = (Return b, set_running b s) /\
  still_scanning (set_running b s) = (Return b, set_running b s).
Proof.
  cbv zeta. pose proof still_scanning_value as E.
  split; [apply E |].
  rewrite E. cbn.
  destruct (running s && (current_t s <=? tmax s)%Z) eqn:Hb; cbn; [| reflexivity].
  apply andb_prop in Hb. destruct Hb as [_ Hb]. rewrite Hb. reflexivity.
Qed.

(** ** [start] and [stop] *)

(** X2. [start] sets [running] before it starts the rate counter, so
    [running] is true afterwards even when the counter raises; [stop] stops
    the counter first, so it clears [running] only when the counter's [stop]
    returns.  Both pass on what the counter raises. *)
Theorem start_stop_order (s : CounterAndScanner A C R) :
  fst (start rc s) = of_option_exn (fst (rc_start rc (rate_counter s))) /\
  running (snd (start rc s)) = true /\
  fst (stop rc s) = of_option_exn (fst (rc_stop rc (rate_counter s))) /\
  running (snd (stop rc s)) =
    match fst (rc_stop rc (rate_counter s)) with
    | None => false
    | Some _ => running s
    end.
Proof.
  unfold start, stop, bind, assign, rc_cmd. cbn.
  destruct (rc_start rc (rate_counter s)) as [r1 c1].
  destruct (rc_stop rc (rate_counter s)) as [[e |] c2]; cbn; repeat split.
Qed.

(** ** [go_to_v] *)

(** X3. [go_to_v] commands the wavelength controller to the desired voltage
    exactly when a controller is present and the voltage lies within
    [[vmin, vmax]], both ends checked; otherwise it returns normally and does
    nothing.  It never touches [current_v].  A [ValueError] from the move is
    swallowed, any other exception is passed on. *)
Theorem go_to_v_checks_both_bounds (s : CounterAndScanner A C R) (d : float) :
  let ok := wc_present wc s && within_scan_range s d in
  let s' := snd (go_to_v wc d s) in
  commanded (new_events s s') = (if ok then [d] else []) /\
  (ok = false -> go_to_v wc d s = (Return tt, s)) /\
  current_v s' = current_v s /\
  forall a, wavelength_controller s = Some a -> ok = true ->
    fst (go_to_v wc d s) =
    match fst (go_to_voltage wc "v" d a) with
    | Some e => if is_ValueError e then Return tt else Raise e
    | None => Return tt
    end.
Proof.
  cbv zeta. unfold go_to_v, bind, attr, within_scan_range.
  replace (wc_present wc s && (d <=? vmax s) && (vmin s <=? d))
    with (wc_present wc s && ((vmin s <=? d) && (d <=? vmax s)))
    by (destruct (wc_present wc s), (vmin s <=? d), (d <=? vmax s); reflexivity).
  destruct (wc_present wc s && ((vmin s <=? d) && (d <=? vmax s))) eqn:Hc; cbn [when].
  - apply andb_prop in Hc. destruct Hc as [Hp _]. unfold wc_present in Hp.
    unfold try_except_ValueError, wc_call.
    destruct (wavelength_controller s) as [a |] eqn:Ha; [| discriminate Hp].
    destruct (go_to_voltage wc "v" d a) as [[e |] a'] eqn:Hgo; cbn.
    + destruct (is_ValueError e) eqn:He; cbn.
      * split. { erewrite new_events_app; [| cbn; rewrite <- List.app_assoc; reflexivity].
                 reflexivity. }
        split; [discriminate |]. split; [reflexivity |].
        intros a0 Ha0 _. inversion Ha0; subst a0. rewrite Hgo. cbn. rewrite He. reflexivity.
      * split. { erewrite new_events_app; [| cbn; reflexivity]. reflexivity. }
        split; [discriminate |]. split; [reflexivity |].
        intros a0 Ha0 _. inversion Ha0; subst a0. rewrite Hgo. cbn. rewrite He. reflexivity.
    + split. { erewrite new_events_app; [| cbn; reflexivity]. reflexivity. }
      split; [discriminate |]. split; [reflexivity |].
      intros a0 Ha0 _. inversion Ha0; subst a0. rewrite Hgo. reflexivity.
  - cbn. split. { rewrite new_events_same; reflexivity. }
    split; [reflexivity |]. split; [reflexivity |].
    intros a0 _ Hf. discriminate Hf.
Qed.

(** ** [move_v], what it raises *)

(** X4. Once [current_v] is set, [move_v] raises only what the move it
    commands raises that is not a [ValueError]: without a controller, or with
    the new position above [vmax], or when the move returns or raises a
    [ValueError], it returns normally.  Either way [current_v] has been
    advanced. *)
Theorem move_v_passes_on_other_errors (s : CounterAndScanner A C R) (v : float) :
  current_v s = Some v ->
  let v' := v + _step_size s in
  fst (move_v wc s) =
    match wavelength_controller s with
    | None => Return tt
    | Some a =>
        if wc_bool wc a && (v' <=? vmax s) then
          match fst (go_to_position wc "v" v' a) with
          | Some e => if is_ValueError e then Return tt else Raise e
          | None => Return tt
          end
        else Return tt
    end /\
  current_v (snd (move_v wc s)) = Some v'.
Proof.
  intros Hv. cbv zeta. rewrite (move_v_unfold s Hv). cbv zeta.
  unfold wc_present. destruct (wavelength_controller s) as [a |] eqn:Ha; cbn [andb when].
  - destruct (wc_bool wc a && (v + _step_size s <=? vmax s)); cbn [when].
    + unfold try_except_ValueError, wc_call. cbn [wavelength_controller set_current_v].
      rewrite Ha.
      destruct (go_to_position wc "v" (v + _step_size s) a) as [[e |] a']; cbn.
      * destruct (is_ValueError e); cbn; split; reflexivity.
      * split; reflexivity.
    + cbn. split; reflexivity.
  - cbn. split; reflexivity.
Qed.

(** ** [set_to_starting_position] *)

(** X5. [set_to_starting_position] sets [current_v] to [vmin] and, when a
    controller is present, commands it to [vmin]; unlike [move_v] it catches
    nothing, so whatever the move raises is passed on, with [current_v]
    already set. *)
Theorem set_to_starting_position_moves_to_vmin (s : CounterAndScanner A C R) :
  let s' := snd (set_to_starting_position wc s) in
  current_v s' = Some (vmin s) /\
  commanded (new_events s s') = (if wc_present wc s then [vmin s] else []) /\
  fst (set_to_starting_position wc s) =
    match wavelength_controller s with
    | Some a =>
        if wc_bool wc a then of_option_exn (fst (go_to_voltage wc "v" (vmin s) a))
        else Return tt
    | None => Return tt
    end.
Proof.
  cbv zeta. unfold set_to_starting_position, bind, attr, assign, wc_present. cbn.
  destruct (wavelength_controller s) as [a |] eqn:Ha; cbn.
  - destruct (wc_bool wc a); cbn.
    + unfold wc_call. cbn. rewrite Ha.
      destruct (go_to_voltage wc "v" (vmin s) a) as [r a']. cbn.
      split; [reflexivity |]. split; [| reflexivity].
      erewrite new_events_app; [| cbn; reflexivity]. reflexivity.
    + split; [reflexivity |]. split; [| reflexivity].
      rewrite new_events_same; reflexivity.
  - split; [reflexivity |]. split; [| reflexivity].
    rewrite new_events_same; reflexivity.
Qed.

(** ** [scan_v], step by step *)

Lemma blind_running : device_blind (running (A:=A) (C:=C) (R:=R)).
Proof. split; reflexivity. Qed.

Lemma blind_scanned_raw_counts : device_blind (scanned_raw_counts (A:=A) (C:=C) (R:=R)).
Proof. split; reflexivity. Qed.

Lemma blind_scanned_count_rate : device_blind (scanned_count_rate (A:=A) (C:=C) (R:=R)).
Proof. split; reflexivity. Qed.

Lemma blind_num_daq_batches : device_blind (num_daq_batches (A:=A) (C:=C) (R:=R)).
Proof. split; reflexivity. Qed.

(** [scan_v] as the two calls that can raise and the assignments between
    them. *)
Lemma scan_v_unfold (s : CounterAndScanner A C R) :
  scan_v wc rc s =
  match scan_axis wc rc "v" (vmin s) (vmax s) (_step_size s) s with
  | (Raise e, s1) => (Raise e, s1)
  | (Return raw, s1) =>
      match map_M (fun r => sample_count_rate rc (Some r)) raw
              (set_scanned_raw_counts (scanned_raw_counts s1 ++ [raw]) s1) with
      | (Raise e, s3) => (Raise e, s3)
      | (Return rates, s3) =>
          (Return tt,
           set_current_t (current_t s3 + 1)%Z
             (set_scanned_count_rate (scanned_count_rate s3 ++ [rates]) s3))
      end
  end.
Proof.
  unfold scan_v, bind, attr, assign.
  destruct (scan_axis wc rc "v" (vmin s) (vmax s) (_step_size s) s) as [[raw | e] s1];
    [| reflexivity].
  destruct (map_M _ raw _) as [[rates | e] s3]; reflexivity.
Qed.

Lemma count_rates_keep (F : Type) (f : CounterAndScanner A C R -> F) raw :
  device_blind f ->
  keeps f (map_M (fun r => sample_count_rate rc (Some r)) raw).
Proof.
  intros Hf. apply keeps_map_M. intros r. apply (keeps_sample_count_rate Hf).
Qed.

Lemma scan_v_returned (s s' : CounterAndScanner A C R) :
  scan_v wc rc s = (Return tt, s') ->
  exists raw rates s1,
    scan_axis wc rc "v" (vmin s) (vmax s) (_step_size s) s = (Return raw, s1) /\
    scanned_raw_counts s' = scanned_raw_counts s ++ [raw] /\
    scanned_count_rate s' = scanned_count_rate s ++ [rates] /\
    List.length rates = List.length raw.
Proof.
  rewrite scan_v_unfold.
  destruct (scan_axis wc rc "v" (vmin s) (vmax s) (_step_size s) s) as [[raw | e] s1] eqn:Eax;
    [| discriminate].
  destruct (map_M _ raw _) as [[rates | e] s3] eqn:Emap; [| discriminate].
  intros H. inversion H; subst s'; clear H.
  exists raw, rates, s1. split; [reflexivity |].
  pose proof (keeps_scan_axis blind_scanned_raw_counts "v" (vmin s) (vmax s) (_step_size s) s) as K1.
  pose proof (keeps_scan_axis blind_scanned_count_rate "v" (vmin s) (vmax s) (_step_size s) s) as K2.
  rewrite Eax in K1, K2. cbn [snd] in K1, K2.
  pose proof (count_rates_keep raw blind_scanned_raw_counts
                (set_scanned_raw_counts (scanned_raw_counts s1 ++ [raw]) s1)) as K3.
  pose proof (count_rates_keep raw blind_scanned_count_rate
                (set_scanned_raw_counts (scanned_raw_counts s1 ++ [raw]) s1)) as K4.
  rewrite Emap in K3, K4. cbn in K3, K4.
  cbn. rewrite K3, K4, K1, K2.
  repeat split. exact (map_M_length _ _ _ Emap).
Qed.

(** X6. With collaborators that do not raise, a sweep returns, counts as
    one, and stores one line: as many raw samples, and as many count rates,
    as [np.arange(vmin, vmax, step_size)] has values. *)
Theorem scan_v_stores_one_line (s : CounterAndScanner A C R) (vals : list float) :
  (forall a, wc_bool wc a = true) ->
  (forall kw v a, fst (go_to_voltage wc kw v a) = None) ->
  (forall n c, returned (fst (rc_sample_counts rc n c)) = true) ->
  (forall r c, returned (fst (rc_sample_count_rate rc r c)) = true) ->
  wavelength_controller s <> None ->
  sleep_outcome (raster_line_pause s) = None ->
  Numpy.arange (vmin s) (vmax s) (_step_size s) = Return vals ->
  exists s' raw rates,
    scan_v wc rc s = (Return tt, s') /\
    scanned_raw_counts s' = scanned_raw_counts s ++ [raw] /\
    scanned_count_rate s' = scanned_count_rate s ++ [rates] /\
    List.length raw = List.length vals /\
    List.length rates = List.length vals /\
    current_t s' = (current_t s + 1)%Z.
Proof.
  intros H1 H2 H3 H4 Hwc Hsleep Har.
  destruct (scan_v_returns H1 H2 H3 H4 s Hwc Hsleep) as (s' & Hrun & _).
  { rewrite Har. reflexivity. }
  destruct (@scan_v_returned s s' Hrun) as (raw & rates & s1 & Hax & Hraw & Hrate & Hlen).
  destruct (scan_axis_returns H1 H2 H3 "v" (vmin s) (vmax s) (_step_size s) s Hwc Hsleep Har)
    as (rs & s1' & Hax' & _ & _ & _ & Hlen').
  rewrite Hax in Hax'. inversion Hax'; subst rs s1'.
  exists s', raw, rates.
  split; [exact Hrun |]. split; [exact Hraw |]. split; [exact Hrate |].
  split; [exact Hlen' |]. split; [congruence |].
  exact (@scan_v_counts_sweep s s' Hrun).
Qed.

(** X7. A sweep that raises is not counted: [current_t] and
    [scanned_count_rate] are as before.  [scanned_raw_counts] is as before
    when the line scan raised, and one entry longer when computing the count
    rates raised: the two result lists are then out of step. *)
Theorem scan_v_failed_sweep (s s' : CounterAndScanner A C R) e :
  scan_v wc rc s = (Raise e, s') ->
  current_t s' = current_t s /\
  scanned_count_rate s' = scanned_count_rate s /\
  (fst (scan_axis wc rc "v" (vmin s) (vmax s) (_step_size s) s) = Raise e /\
   scanned_raw_counts s' = scanned_raw_counts s
   \/
   exists raw,
     fst (scan_axis wc rc "v" (vmin s) (vmax s) (_step_size s) s) = Return raw /\
     scanned_raw_counts s' = scanned_raw_counts s ++ [raw]).
Proof.
  rewrite scan_v_unfold.
  pose proof (fun F (f : CounterAndScanner A C R -> F) Hf =>
                @keeps_scan_axis F f Hf "v" (vmin s) (vmax s) (_step_size s) s) as K.
  destruct (scan_axis wc rc "v" (vmin s) (vmax s) (_step_size s) s) as [[raw | e0] s1] eqn:Eax;
    cbn [snd] in K.
  - pose proof (fun F (f : CounterAndScanner A C R -> F) Hf =>
                  @count_rates_keep F f raw Hf
                    (set_scanned_raw_counts (scanned_raw_counts s1 ++ [raw]) s1)) as K'.
    destruct (map_M _ raw _) as [[rates | e1] s3] eqn:Emap; [discriminate |].
    cbn [snd] in K'. intros H. inversion H; subst; clear H.
    rewrite (K' _ _ blind_current_t), (K' _ _ blind_scanned_count_rate),
      (K' _ _ blind_scanned_raw_counts). cbn.
    rewrite (K _ _ blind_current_t), (K _ _ blind_scanned_count_rate),
      (K _ _ blind_scanned_raw_counts).
    split; [reflexivity |]. split; [reflexivity |].
    right. exists raw. split; reflexivity.
  - intros H. inversion H; subst; clear H.
    rewrite (K _ _ blind_current_t), (K _ _ blind_scanned_count_rate),
      (K _ _ blind_scanned_raw_counts).
    split; [reflexivity |]. split; [reflexivity |].
    left. split; reflexivity.
Qed.

(** X8. A sweep, whether it returns or raises, leaves [running], the scan
    range, the step size and [current_v] as they were: the wavelength
    controller is moved, but the position the controller object reports as
    completed is not. *)
Theorem scan_v_keeps_the_settings (s : CounterAndScanner A C R) :
  let s' := snd (scan_v wc rc s) in
  running s' = running s /\
  vmin s' = vmin s /\
  vmax s' = vmax s /\
  _step_size s' = _step_size s /\
  current_v s' = current_v s /\
  get_completed_scan_range s' =
    (fst (get_completed_scan_range s), s').
Proof.
  cbv zeta.
  pose proof (fun F (f : CounterAndScanner A C R -> F) Hf H1 H2 H3 =>
                @keeps_scan_v F f Hf H1 H2 H3 s) as K.
  assert (Hr := K _ _ blind_running (fun _ _ => eq_refl) (fun _ _ => eq_refl) (fun _ _ => eq_refl)).
  assert (Hlo := K _ _ blind_vmin (fun _ _ => eq_refl) (fun _ _ => eq_refl) (fun _ _ => eq_refl)).
  assert (Hhi := K _ _ blind_vmax (fun _ _ => eq_refl) (fun _ _ => eq_refl) (fun _ _ => eq_refl)).
  assert (Hst := K _ _ blind_step_size (fun _ _ => eq_refl) (fun _ _ => eq_refl) (fun _ _ => eq_refl)).
  assert (Hv := K _ _ blind_current_v (fun _ _ => eq_refl) (fun _ _ => eq_refl) (fun _ _ => eq_refl)).
  repeat (split; [assumption |]).
  unfold get_completed_scan_range, bind, attr, read_current_v.
  rewrite Hlo, Hhi, Hv. destruct (current_v s); reflexivity.
Qed.

(** ** Several sweeps *)

(** X9. [n] sweeps that return add [n] entries to each of the two result
    lists, and entry by entry there is one count rate per raw sample. *)
Theorem sweeps_accumulate (n : nat) (s s' : CounterAndScanner A C R) :
  repeat_M n (scan_v wc rc) s = (Return tt, s') ->
  exists raws rates,
    scanned_raw_counts s' = scanned_raw_counts s ++ raws /\
    scanned_count_rate s' = scanned_count_rate s ++ rates /\
    List.length raws = n /\
    List.Forall2 (fun raw rate => List.length rate = List.length raw) raws rates.
Proof.
  revert s. induction n as [| n IH]; intros s H.
  - inversion H; subst. exists [], []. rewrite !List.app_nil_r. repeat split. constructor.
  - cbn [repeat_M] in H. apply bind_Return_inv in H. destruct H as ([] & s1 & E & H).
    destruct (@scan_v_returned s s1 E) as (raw & rate & _ & _ & Hraw & Hrate & Hlen).
    destruct (IH _ H) as (raws & rates & Hraws & Hrates & Hn & Hall).
    exists (raw :: raws), (rate :: rates).
    rewrite Hraws, Hrates, Hraw, Hrate, <- !List.app_assoc. cbn.
    repeat split; [congruence |]. constructor; assumption.
Qed.

(** X10. After [n] sweeps that returned, [still_scanning] answers
    [running and current_t + n <= tmax], with the values from before the
    sweeps: a run that starts at [current_t = 0] is allowed exactly
    [tmax + 1] sweeps. *)
Theorem still_scanning_after_sweeps (n : nat) (s s' : CounterAndScanner A C R) :
  repeat_M n (scan_v wc rc) s = (Return tt, s') ->
  fst (still_scanning s') =
    Return (running s && (current_t s + Z.of_nat n <=? tmax s)%Z).
Proof.
  intros H.
  destruct (sweeps_count n s H) as [Ht Hm].
  pose proof (@keeps_repeat_M _ _ (running (A:=A) (C:=C) (R:=R)) (scan_v wc rc) n
                (keeps_scan_v blind_running (fun _ _ => eq_refl) (fun _ _ => eq_refl)
                   (fun _ _ => eq_refl)) s) as Hr.
  rewrite H in Hr. cbn [snd] in Hr.
  rewrite still_scanning_value. cbn [fst].
  rewrite Hr, Ht, Hm. reflexivity.
Qed.

(** ** What no sequence of calls changes *)

Ltac frame_call Hf :=
  cbn [after_call];
  by_keeps;
  unfold stop, start, set_to_starting_position, close, set_num_data_samples_per_batch,
    set_scan_range, get_scan_range, get_completed_scan_range, still_scanning, move_v,
    go_to_v, scan_v, reset, configure_view, step_size, set_step_size_property;
  keeps_tac Hf.

Lemma after_calls_keep (F : Type) (f : CounterAndScanner A C R -> F)
    (allowed : call R -> bool) :
  (forall c s, allowed c = true -> f (after_call wc rc c s) = f s) ->
  forall cs s, forallb allowed cs = true -> f (after_calls wc rc cs s) = f s.
Proof.
  intros Hstep cs. induction cs as [| c cs IH]; intros s Hcs; cbn in *.
  - reflexivity.
  - apply andb_prop in Hcs. destruct Hcs as [Hc Hcs].
    unfold after_calls in IH. rewrite (IH _ Hcs). apply Hstep. exact Hc.
Qed.

Lemma forallb_all (X : Type) (l : list X) : forallb (fun _ => true) l = true.
Proof. induction l as [| x l IH]; cbn; [reflexivity | exact IH]. Qed.

Lemma after_call_keeps_tmax (c : call R) (s : CounterAndScanner A C R) :
  tmax (after_call wc rc c s) = tmax s.
Proof. destruct c; frame_call blind_tmax. Qed.

Lemma after_call_keeps_raster_line_pause (c : call R) (s : CounterAndScanner A C R) :
  raster_line_pause (after_call wc rc c s) = raster_line_pause s.
Proof. destruct c; frame_call blind_raster_line_pause. Qed.

Lemma after_call_keeps_num_daq_batches (c : call R) (s : CounterAndScanner A C R) :
  num_daq_batches (after_call wc rc c s) = num_daq_batches s.
Proof. destruct c; frame_call blind_num_daq_batches. Qed.

(** X11. No method assigns [tmax], [raster_line_pause] or [num_daq_batches]:
    after any sequence of calls, whatever they returned or raised, a
    controller built by [__init__] still has a budget of [tmax = 100], a pause
    of 0.15 s and one batch per sample. *)
Theorem constructor_settings_are_fixed (cs : list (call R)) (c : C) (a : A) :
  let s' := after_calls wc rc cs (constructed R wc c a) in
  tmax s' = 100%Z /\
  raster_line_pause s' = 0.150 /\
  num_daq_batches s' = 1%Z.
Proof.
  cbv zeta.
  rewrite (after_calls_keep _ (fun _ => true) (fun c0 s0 _ => after_call_keeps_tmax c0 s0))
    by apply forallb_all.
  rewrite (after_calls_keep _ (fun _ => true)
             (fun c0 s0 _ => after_call_keeps_raster_line_pause c0 s0))
    by apply forallb_all.
  rewrite (after_calls_keep _ (fun _ => true)
             (fun c0 s0 _ => after_call_keeps_num_daq_batches c0 s0))
    by apply forallb_all.
  repeat split.
Qed.

Lemma after_call_keeps_vmin (c : call R) (s : CounterAndScanner A C R) :
  negb (is_set_scan_range c) = true -> vmin (after_call wc rc c s) = vmin s.
Proof. intros Hc. destruct c; try discriminate Hc; frame_call blind_vmin. Qed.

Lemma after_call_keeps_vmax (c : call R) (s : CounterAndScanner A C R) :
  negb (is_set_scan_range c) = true -> vmax (after_call wc rc c s) = vmax s.
Proof. intros Hc. destruct c; try discriminate Hc; frame_call blind_vmax. Qed.

(** X12. The scan range is changed by [set_scan_range] alone: after any
    calls of other methods, sweeps and moves included, [get_scan_range]
    returns the pair it returned before. *)
Theorem scan_range_changes_only_by_set_scan_range
    (cs : list (call R)) (s : CounterAndScanner A C R) :
  forallb (fun c => negb (is_set_scan_range c)) cs = true ->
  fst (get_scan_range (after_calls wc rc cs s)) = fst (get_scan_range s).
Proof.
  intros Hcs. unfold get_scan_range, bind, attr, ret. cbn.
  rewrite (after_calls_keep _ _ after_call_keeps_vmin cs s Hcs).
  rewrite (after_calls_keep _ _ after_call_keeps_vmax cs s Hcs).
  reflexivity.
Qed.

(** ** The sweep index *)

Lemma after_call_current_t (c : call R) (s : CounterAndScanner A C R) :
  (current_t s <= current_t (after_call wc rc c s)
   <= current_t s + (if is_scan_v c then 1 else 0))%Z.
Proof.
  destruct c; cbn [is_scan_v];
    try (match goal with
         | |- (_ <= current_t (after_call _ _ ?c0 _) <= _)%Z =>
             assert (E : current_t (after_call wc rc c0 s) = current_t s)
               by (frame_call blind_current_t);
             rewrite E; lia
         end).
  cbn [after_call].
  destruct (scan_v wc rc s) as [[[] | e] s'] eqn:E; cbn [snd].
  - rewrite (@scan_v_counts_sweep s s' E). lia.
  - rewrite scan_v_unfold in E.
    pose proof (keeps_scan_axis blind_current_t "v" (vmin s) (vmax s) (_step_size s) s) as K.
    destruct (scan_axis wc rc "v" (vmin s) (vmax s) (_step_size s) s) as [[raw | e0] s1];
      cbn [snd] in K.
    + pose proof (count_rates_keep raw blind_current_t
                    (set_scanned_raw_counts (scanned_raw_counts s1 ++ [raw]) s1)) as K'.
      destruct (map_M _ raw _) as [[rates | e1] s3]; [discriminate |].
      cbn in K'. inversion E; subst. lia.
    + inversion E; subst. lia.
Qed.

(** X13. The sweep index never goes down and nothing sets it back, [reset]
    included: after any sequence of calls [current_t] is at least what it was
    and at most that plus the number of [scan_v] calls made. *)
Theorem current_t_only_grows (cs : list (call R)) (s : CounterAndScanner A C R) :
  (current_t s <= current_t (after_calls wc rc cs s)
   <= current_t s + Z.of_nat (sweep_calls cs))%Z.
Proof.
  revert s. induction cs as [| c cs IH]; intros s.
  - cbn. lia.
  - unfold after_calls in *. cbn [fold_left].
    specialize (IH (after_call wc rc c s)).
    pose proof (after_call_current_t c s) as Hc.
    unfold sweep_calls in *. cbn [List.filter].
    destruct (is_scan_v c); cbn [List.length]; lia.
Qed.

(** X14. Once the budget is used up it stays used up: with
    [current_t > tmax], after any sequence of calls, [start] and [reset]
    included, [still_scanning] returns [False]. *)
Theorem exhausted_stays_exhausted (cs : list (call R)) (s : CounterAndScanner A C R) :
  (tmax s < current_t s)%Z ->
  fst (still_scanning (after_calls wc rc cs s)) = Return false /\
  running (snd (still_scanning (after_calls wc rc cs s))) = false.
Proof.
  intros Hlt. apply still_scanning_exhausted.
  revert s Hlt. induction cs as [| c cs IH]; intros s Hlt.
  - exact Hlt.
  - unfold after_calls in *. cbn [fold_left]. apply IH.
    rewrite after_call_keeps_tmax.
    pose proof (after_call_current_t c s) as Hc. lia.
Qed.

(** ** The line scan and the wavelength controller *)

(** X15. With [None] for the wavelength controller, the methods that test
    [if self.wavelength_controller] return normally without commanding
    anything, while [scan_axis] and [scan_v], whose first move is not behind
    that test, raise [AttributeError] and do nothing else. *)
Theorem methods_without_a_controller_object (s : CounterAndScanner A C R) :
  wavelength_controller s = None ->
  (forall axis lo hi step,
     scan_axis wc rc axis lo hi step s = (Raise (AttributeError "go_to_voltage"), s)) /\
  scan_v wc rc s = (Raise (AttributeError "go_to_voltage"), s) /\
  (forall d, go_to_v wc d s = (Return tt, s)) /\
  (forall lo hi, fst (set_scan_range wc lo hi s) = Return tt) /\
  set_to_starting_position wc s = (Return tt, set_current_v (Some (vmin s)) s) /\
  (forall v, current_v s = Some v ->
     move_v wc s = (Return tt, set_current_v (Some (v + _step_size s)) s)).
Proof.
  intros Hnone.
  assert (Hp : wc_present wc s = false) by (unfold wc_present; rewrite Hnone; reflexivity).
  assert (Hax : forall axis lo hi step,
             scan_axis wc rc axis lo hi step s = (Raise (AttributeError "go_to_voltage"), s)).
  { intros. unfold scan_axis, bind, wc_call. rewrite Hnone. reflexivity. }
  split; [exact Hax |].
  split. { rewrite scan_v_unfold, Hax. reflexivity. }
  split. { intros d. unfold go_to_v, bind, attr. rewrite Hp. reflexivity. }
  split. { intros lo hi. rewrite (set_scan_range_unchecked s lo hi Hp). reflexivity. }
  split. { unfold set_to_starting_position, bind, attr, assign, wc_present. cbn.
           rewrite Hnone. reflexivity. }
  intros v Hv. rewrite (move_v_unfold s Hv). cbv zeta. rewrite Hp. reflexivity.
Qed.

(** X16. [scan_axis] catches nothing: when the controller rejects the first
    move, to [min], the exception is passed on whatever its class, a
    [ValueError] included, and the scan neither sleeps nor samples. *)
Theorem scan_axis_passes_on_a_rejected_move
    (s : CounterAndScanner A C R) a axis lo hi step e a' :
  wavelength_controller s = Some a ->
  go_to_voltage wc axis lo a = (Some e, a') ->
  let s' := snd (scan_axis wc rc axis lo hi step s) in
  fst (scan_axis wc rc axis lo hi step s) = Raise e /\
  new_events s s' = [EvGoToVoltage axis lo] /\
  wavelength_controller s' = Some a' /\
  rate_counter s' = rate_counter s.
Proof.
  intros Ha Hgo. cbv zeta. unfold scan_axis, bind, wc_call. rewrite Ha, Hgo. cbn.
  repeat split. apply new_events_app. reflexivity.
Qed.

(** X17. When [np.arange] raises, for a zero step for instance, [scan_axis]
    passes the exception on after the first move and the sleep, and takes no
    sample: a bad step size makes the scan fail, it does not make it loop. *)
Theorem scan_axis_with_a_bad_step
    (s : CounterAndScanner A C R) a axis lo hi step e :
  wavelength_controller s = Some a ->
  fst (go_to_voltage wc axis lo a) = None ->
  sleep_outcome (raster_line_pause s) = None ->
  Numpy.arange lo hi step = Raise e ->
  let s' := snd (scan_axis wc rc axis lo hi step s) in
  fst (scan_axis wc rc axis lo hi step s) = Raise e /\
  new_events s s' = [EvGoToVoltage axis lo; EvSleep (raster_line_pause s)] /\
  rate_counter s' = rate_counter s.
Proof.
  intros Ha Hgo Hsleep Har. cbv zeta.
  assert (E : exists s1,
             scan_axis wc rc axis lo hi step s = (Raise e, s1) /\
             trace s1 = (trace s ++ [EvGoToVoltage axis lo]) ++ [EvSleep (raster_line_pause s)] /\
             rate_counter s1 = rate_counter s).
  { unfold scan_axis. unfold bind at 1. unfold wc_call at 1. rewrite Ha.
    destruct (go_to_voltage wc axis lo a) as [r0 a']. cbn in Hgo. subst r0.
    cbn [of_option_exn].
    unfold bind at 1, attr at 1. cbn [raster_line_pause set_wavelength_controller set_trace].
    unfold bind at 1. unfold time_sleep at 1. rewrite Hsleep.
    unfold emit at 1, assign at 1.
    unfold bind at 1. unfold np_arange at 1. rewrite Har.
    eexists. split; [reflexivity |]. cbn. split; reflexivity. }
  destruct E as (s1 & E & Htr & Hrc). rewrite E. cbn [fst snd].
  repeat split; [| exact Hrc].
  apply new_events_app. rewrite Htr, <- List.app_assoc. reflexivity.
Qed.

(** The loop with a controller that is false: no move, one sample per value. *)
Lemma scan_axis_loop_without_moves axis vals raw (s : CounterAndScanner A C R) :
  wc_present wc s = false ->
  (forall n c, returned (fst (rc_sample_counts rc n c)) = true) ->
  exists rs s' evs,
    scan_axis_loop wc rc axis vals raw s = (Return (raw ++ rs), s') /\
    trace s' = trace s ++ evs /\
    commanded evs = [] /\
    (forall at_, sampled at_ evs = List.map (fun r => (at_, r)) rs) /\
    List.length rs = List.length vals.
Proof.
  intros Hp Hsm. revert raw s Hp.
  induction vals as [| val vals IH]; intros raw s Hp.
  - exists [], s, []. cbn. rewrite !List.app_nil_r. repeat split.
  - cbn [scan_axis_loop].
    unfold bind at 1. unfold attr at 1. rewrite Hp.
    unfold bind at 1. cbn [when]. unfold ret at 1.
    unfold bind at 1. unfold sample_counts at 1.
    unfold bind at 1. unfold attr at 1. unfold rc_call at 1.
    pose proof (Hsm (num_daq_batches s) (rate_counter s)) as Hr.
    destruct (rc_sample_counts rc (num_daq_batches s) (rate_counter s)) as [[r | e] c'];
      cbn in Hr; [| discriminate Hr].
    cbn [value_of].
    unfold bind at 1. unfold logger_info at 1, emit at 1, assign at 1.
    unfold bind at 1. unfold attr at 1.
    match goal with
    | |- context [wc_present wc ?s1] =>
        replace (wc_present wc s1) with false by (symmetry; exact Hp)
    end.
    unfold bind at 1. cbn [when]. unfold ret at 1.
    match goal with
    | |- context [scan_axis_loop wc rc axis vals (raw ++ [r]) ?s1] =>
        destruct (IH (raw ++ [r]) s1 Hp) as (rs & s' & evs & Hrun & Htr & Hcmd & Hsmp & Hlen)
    end.
    exists (r :: rs), s'. eexists.
    split. { rewrite Hrun, <- List.app_assoc. reflexivity. }
    split. { rewrite Htr. cbn. rewrite <- !List.app_assoc. reflexivity. }
    split. { cbn. exact Hcmd. }
    split. { intros at_. cbn. rewrite Hsmp. reflexivity. }
    cbn. rewrite Hlen. reflexivity.
Qed.

(** X18. With a controller object that is false, [scan_axis] still commands
    the first move to [min], but none of the moves of the loop: every sample
    of the scan is taken with the controller at [min]. *)
Theorem scan_axis_with_a_false_controller
    (s : CounterAndScanner A C R) a a' axis lo hi step vals :
  wavelength_controller s = Some a ->
  go_to_voltage wc axis lo a = (None, a') ->
  wc_bool wc a' = false ->
  (forall n c, returned (fst (rc_sample_counts rc n c)) = true) ->
  sleep_outcome (raster_line_pause s) = None ->
  Numpy.arange lo hi step = Return vals ->
  exists rs s',
    scan_axis wc rc axis lo hi step s = (Return rs, s') /\
    commanded (new_events s s') = [lo] /\
    sampled None (new_events s s') = List.map (fun r => (Some lo, r)) rs /\
    List.length rs = List.length vals.
Proof.
  intros Ha Hgo Hfalse Hsm Hsleep Har.
  unfold scan_axis. unfold bind at 1. unfold wc_call at 1. rewrite Ha, Hgo.
  cbn [of_option_exn].
  unfold bind at 1, attr at 1. cbn [raster_line_pause set_wavelength_controller set_trace].
  unfold bind at 1. unfold time_sleep at 1. rewrite Hsleep.
  unfold emit at 1, assign at 1.
  unfold bind at 1. unfold np_arange at 1. rewrite Har.
  match goal with
  | |- context [scan_axis_loop wc rc axis vals [] ?s1] =>
      destruct (@scan_axis_loop_without_moves axis vals [] s1)
        as (rs & s' & evs & Hrun & Htr & Hcmd & Hsmp & Hlen);
      [unfold wc_present; cbn; exact Hfalse | exact Hsm |]
  end.
  exists rs, s'. rewrite Hrun. cbn [List.app]. split; [reflexivity |].
  cbn [trace set_trace set_wavelength_controller] in Htr.
  rewrite (@new_events_app s s'
             ([EvGoToVoltage axis lo; EvSleep (raster_line_pause s)] ++ evs)).
  2: { rewrite Htr, <- !List.app_assoc. reflexivity. }
  cbn. rewrite Hcmd, Hsmp. repeat split. exact Hlen.
Qed.

End Properties.

(** * Concrete runs *)

Section Runs.

Local Open Scope float_scope.

(** [scan_axis("v", 0.0, 2.0, 0.5)] on the stubs: the moves commanded, the
    position of each sample, and the four samples returned. *)
Example scan_axis_0_2_half :
  let s := Stub.fresh_lenient 0 10 in
  let r := scan_axis Stub.lenient Stub.counter "v" 0 2 0.5 s in
  fst r = Return [0; 1; 2; 3]%Z /\
  commanded (new_events s (snd r)) = [0; 0; 0.5; 1; 1.5] /\
  sampled None (new_events s (snd r)) =
    [(Some 0, 0%Z); (Some 0.5, 1%Z); (Some 1, 2%Z); (Some 1.5, 3%Z)].
Proof. vm_compute. repeat split. Qed.

(** C1, counterexample.  After [set_to_starting_position()] at 0 and
    [set_scan_range(5, 10)], [move_v] makes the position 0.5, which is outside
    [[vmin, vmax] = [5, 10]], and still commands the controller to 0.5. *)
Lemma move_v_commands_below_vmin :
  let s := Stub.narrowed in
  let s' := snd (move_v Stub.bounded s) in
  wc_present Stub.bounded s = true /\
  current_v s = Some 0 /\
  current_v s' = Some 0.5 /\
  within_scan_range s 0.5 = false /\
  new_events s s' = [EvGoToPosition "v" 0.5].
Proof. vm_compute. repeat split. Qed.

Lemma move_v_steps_and_commands_witness :
  let s := Stub.narrowed in
  let s' := snd (move_v Stub.bounded s) in
  current_v s = Some 0 /\
  current_v s' = Some 0.5 /\
  commanded (new_events s s') = [0.5].
Proof.
  cbv zeta. split; [reflexivity |].
  pose proof (@move_v_steps_and_commands _ _ _ Stub.bounded Stub.narrowed 0 eq_refl) as H.
  cbv zeta in H. destruct H as (H1 & H2 & _).
  split; [exact H1 | exact H2].
Defined.

Lemma set_scan_range_rejected_witness :
  let s := Stub.fresh 0 10 in
  check_allowed_position Stub.bounded (Stub.device 0 10) 50 <> None /\
  exists e,
    set_scan_range Stub.bounded 5 50 s = (Raise e, s) /\
    (check_allowed_position Stub.bounded (Stub.device 0 10) 5 = Some e \/
     check_allowed_position Stub.bounded (Stub.device 0 10) 50 = Some e) /\
    get_scan_range (snd (set_scan_range Stub.bounded 5 50 s)) = (Return (0, 10), s).
Proof.
  cbv zeta. split; [discriminate |].
  apply (@set_scan_range_rejected _ _ _ Stub.bounded (Stub.fresh 0 10) (Stub.device 0 10) 5 50).
  - reflexivity.
  - reflexivity.
  - right. discriminate.
Defined.

Lemma get_scan_range_after_set_witness :
  exists s',
    set_scan_range Stub.bounded 2 8 (Stub.fresh 0 10) = (Return tt, s') /\
    get_scan_range s' = (Return (2, 8), s').
Proof.
  apply (@get_scan_range_after_set _ _ _ Stub.bounded (Stub.fresh 0 10) (Stub.device 0 10) 2 8);
    reflexivity.
Defined.

Lemma move_v_swallows_rejection_witness :
  let s := Stub.overreaching in
  let s' := snd (move_v Stub.unchecked s) in
  current_v s = Some 0 /\
  vmax s = 20 /\
  fst (move_v Stub.unchecked s) = Return tt /\
  current_v s' = Some 10.5 /\
  new_events s s' =
    [EvGoToPosition "v" 10.5;
     EvLogInfo (MsgOutOfRange (ValueError "value out of range"))].
Proof.
  cbv zeta. split; [reflexivity |]. split; [reflexivity |].
  pose proof (@move_v_swallows_rejection _ _ _ Stub.unchecked Stub.overreaching
                0 (Stub.device 0 10) "value out of range" (Stub.device 0 10)
                eq_refl eq_refl eq_refl eq_refl eq_refl) as H.
  cbv zeta in H. destruct H as (H1 & H2 & H3 & _).
  split; [exact H1 |]. split; [exact H2 | exact H3].
Defined.

Lemma still_scanning_stopped_is_a_read_witness :
  let s := Stub.fresh 0 10 in
  running s = false /\
  still_scanning s = (Return false, s).
Proof.
  cbv zeta. split; [reflexivity |].
  exact (proj1 (@still_scanning_stopped_is_a_read _ _ _ (Stub.fresh 0 10) eq_refl)).
Defined.

Lemma set_scan_range_without_controller_witness :
  let s := Stub.fresh_falsy 0 10 in
  wc_present Stub.bounded s = false /\
  check_allowed_position Stub.bounded (Stub.falsy_device 0 10) 50 <> None /\
  set_scan_range Stub.bounded 50 (-3) s = (Return tt, set_vmax (-3) (set_vmin 50 s)).
Proof.
  cbv zeta. split; [reflexivity |]. split; [discriminate |].
  exact (proj1 (@set_scan_range_without_controller _ _ _ Stub.bounded
                  (Stub.fresh_falsy 0 10) 50 (-3) eq_refl)).
Defined.

Lemma current_v_unset_until_starting_position_witness :
  let s := after_calls Stub.bounded Stub.counter Stub.some_calls (Stub.fresh 0 10) in
  get_completed_scan_range s = (Raise (AttributeError "current_v"), s) /\
  move_v Stub.bounded s = (Raise (AttributeError "current_v"), s) /\
  current_v (snd (set_to_starting_position Stub.bounded s)) = Some 2.
Proof.
  cbv zeta.
  pose proof (@current_v_unset_until_starting_position _ _ _ Stub.bounded Stub.counter
                0%Z (Stub.device 0 10) Stub.some_calls eq_refl) as H.
  cbv zeta in H. destruct H as (_ & _ & H1 & H2 & H3 & _).
  split; [exact H1 |]. split; [exact H2 | exact H3].
Defined.

(** C4, counterexample.  [scan_axis("v", 1.0, 1.3, 0.1)] visits four values,
    not the three of the progression that lie strictly below 1.3: the length
    is [ceil((1.3 - 1.0) / 0.1) = ceil(3.0000000000000004) = 4], and the last
    value visited and sampled, 1.3000000000000003, is above [max]. *)
Lemma scan_axis_reaches_max :
  let s := Stub.fresh_lenient 0 10 in
  let r := scan_axis Stub.lenient Stub.counter "v" 1.0 1.3 0.1 s in
  fst r = Return [0; 1; 2; 3]%Z /\
  List.map fst (sampled None (new_events s (snd r))) =
    [Some 1; Some 1.1; Some 1.2000000000000002; Some 1.3000000000000003] /\
  (1.3000000000000003 <? 1.3) = false /\
  (1.3 <? 1.3000000000000003) = true.
Proof. vm_compute. repeat split. Qed.

Lemma scan_axis_visits_arange_witness :
  let s := Stub.fresh 0 10 in
  exists rs s' evs,
    scan_axis Stub.bounded Stub.counter "v" 0 2 0.5 s = (Return rs, s') /\
    new_events s s' = EvGoToVoltage "v" 0 :: EvSleep 0.150 :: evs /\
    commanded evs = [0; 0.5; 1; 1.5] /\
    sampled (Some 0) evs = List.combine [Some 0; Some 0.5; Some 1; Some 1.5] rs /\
    List.length rs = 4%nat.
Proof.
  cbv zeta.
  exact (proj1 (@scan_axis_visits_arange _ _ _ Stub.bounded Stub.counter
                  "v" 0 2 0.5 [0; 0.5; 1; 1.5] (Stub.fresh 0 10)
                  (Stub.device 0 10) (Stub.device 0 10)
                  eq_refl eq_refl eq_refl eq_refl eq_refl eq_refl)).
Defined.

(** [np.arange] with a zero quotient: an infinite step, or a quotient that
    underflows, gives the one value [start]; a quotient [-0] gives none. *)
Example arange_zero_quotient :
  Numpy.arange 0 2 infinity = Return [0] /\
  Numpy.arange 0 1e-300 1e300 = Return [0] /\
  Numpy.arange 0 (-2) infinity = Return [] /\
  Numpy.arange 0 0 infinity = Return [].
Proof. vm_compute. repeat split. Qed.

(** An infinite step size, which the [step_size] setter lets through: the
    sweep stores a line of one sample and one count rate, and with a
    controller object that is false the line scan still takes that one
    sample, at [min]. *)
Example sweep_with_infinite_step :
  let s := snd (set_step_size_property infinity (Stub.fresh 0 10)) in
  let r := scan_v Stub.bounded Stub.counter s in
  let s0 := Stub.fresh_falsy 0 10 in
  let r0 := scan_axis Stub.bounded Stub.counter "v" 0 2 infinity s0 in
  fst r = Return tt /\
  scanned_raw_counts (snd r) = [[0%Z]] /\
  scanned_count_rate (snd r) = [[0]] /\
  fst r0 = Return [0%Z] /\
  commanded (new_events s0 (snd r0)) = [0] /\
  sampled None (new_events s0 (snd r0)) = [(Some 0, 0%Z)].
Proof. vm_compute. repeat split. Qed.

(** [scan_axis("v", 0.0, 2.0, inf)] on the stubs: one value, one sample. *)
Example scan_axis_infinite_step :
  let s := Stub.fresh 0 10 in
  let r := scan_axis Stub.bounded Stub.counter "v" 0 2 infinity s in
  fst r = Return [0%Z] /\
  commanded (new_events s (snd r)) = [0; 0] /\
  sampled None (new_events s (snd r)) = [(Some 0, 0%Z)].
Proof. vm_compute. repeat split. Qed.

Lemma sweeps_exhaust_budget_witness :
  let s := Stub.started in
  running s = true /\
  current_t s = 0%Z /\
  tmax s = 100%Z /\
  exists s',
    repeat_M 101 (scan_v Stub.lenient Stub.counter) s = (Return tt, s') /\
    fst (still_scanning s') = Return false /\
    running (snd (still_scanning s')) = false.
Proof.
  cbv zeta. split; [reflexivity |]. split; [reflexivity |]. split; [reflexivity |].
  destruct (@sweeps_exhaust_budget _ _ _ Stub.lenient Stub.counter 101 Stub.started
              eq_refl eq_refl) as [Hdone Hruns].
  destruct (Hruns (fun _ => eq_refl) (fun _ _ _ => eq_refl) (fun _ _ => eq_refl)
              (fun _ _ => eq_refl)) as [s' Hs'].
  - discriminate.
  - reflexivity.
  - reflexivity.
  - exists s'. split; [exact Hs' | exact (Hdone s' Hs')].
Defined.

(** ** Runs for the further properties *)

Lemma move_v_passes_on_other_errors_witness :
  let s := Stub.positioned_on_faulty in
  current_v s = Some 0 /\
  fst (move_v Stub.faulty s) = Raise (OtherError "device disconnected") /\
  current_v (snd (move_v Stub.faulty s)) = Some 0.5.
Proof.
  cbv zeta. split; [reflexivity |].
  exact (@move_v_passes_on_other_errors _ _ _ Stub.faulty Stub.positioned_on_faulty 0 eq_refl).
Defined.

Lemma scan_v_stores_one_line_witness :
  let s := Stub.started in
  exists s' raw rates,
    scan_v Stub.lenient Stub.counter s = (Return tt, s') /\
    scanned_raw_counts s' = scanned_raw_counts s ++ [raw] /\
    scanned_count_rate s' = scanned_count_rate s ++ [rates] /\
    List.length raw = 20%nat /\
    List.length rates = 20%nat /\
    current_t s' = 1%Z.
Proof.
  cbv zeta.
  refine (@scan_v_stores_one_line _ _ _ Stub.lenient Stub.counter Stub.started
            (Numpy.arange_values 0 0.5 20)
            (fun _ => eq_refl) (fun _ _ _ => eq_refl) (fun _ _ => eq_refl)
            (fun _ _ => eq_refl) _ eq_refl eq_refl).
  discriminate.
Defined.

Lemma scan_v_failed_sweep_witness :
  let s := set_vmax 1 (Stub.fresh_lenient 0 10) in
  let r := scan_v Stub.lenient Stub.failing_counter s in
  fst r = Raise (OtherError "no clock samples") /\
  current_t (snd r) = current_t s /\
  scanned_count_rate (snd r) = scanned_count_rate s /\
  scanned_raw_counts (snd r) = [[0; 1]%Z].
Proof.
  cbv zeta.
  assert (Hrun : scan_v Stub.lenient Stub.failing_counter
                   (set_vmax 1 (Stub.fresh_lenient 0 10)) =
                 (Raise (OtherError "no clock samples"),
                  snd (scan_v Stub.lenient Stub.failing_counter
                         (set_vmax 1 (Stub.fresh_lenient 0 10)))))
    by (vm_compute; reflexivity).
  destruct (@scan_v_failed_sweep _ _ _ _ _ _ _ _ Hrun) as (H1 & H2 & _).
  split; [vm_compute; reflexivity |]. split; [exact H1 |].
  split; [exact H2 | vm_compute; reflexivity].
Defined.

Lemma sweeps_accumulate_witness :
  let s' := snd (repeat_M 2 (scan_v Stub.lenient Stub.counter) Stub.started) in
  exists raws rates,
    scanned_raw_counts s' = scanned_raw_counts Stub.started ++ raws /\
    scanned_count_rate s' = scanned_count_rate Stub.started ++ rates /\
    List.length raws = 2%nat /\
    List.Forall2 (fun raw rate => List.length rate = List.length raw) raws rates.
Proof.
  cbv zeta.
  apply (@sweeps_accumulate _ _ _ Stub.lenient Stub.counter 2 Stub.started).
  vm_compute. reflexivity.
Defined.

Lemma still_scanning_after_sweeps_witness :
  let s' := snd (repeat_M 2 (scan_v Stub.lenient Stub.counter) Stub.started) in
  fst (still_scanning s') = Return true.
Proof.
  cbv zeta.
  apply (@still_scanning_after_sweeps _ _ _ Stub.lenient Stub.counter 2 Stub.started).
  vm_compute. reflexivity.
Defined.

Lemma scan_range_changes_only_by_set_scan_range_witness :
  fst (get_scan_range
         (after_calls Stub.bounded Stub.counter Stub.other_calls (Stub.fresh 0 10))) =
  Return (0, 10).
Proof.
  exact (@scan_range_changes_only_by_set_scan_range _ _ _ Stub.bounded Stub.counter
           Stub.other_calls (Stub.fresh 0 10) eq_refl).
Defined.

Lemma exhausted_stays_exhausted_witness :
  let s := after_calls Stub.lenient Stub.counter Stub.revival_calls Stub.exhausted in
  (tmax Stub.exhausted < current_t Stub.exhausted)%Z /\
  fst (still_scanning s) = Return false /\
  running (snd (still_scanning s)) = false.
Proof.
  cbv zeta. split; [reflexivity |].
  apply (@exhausted_stays_exhausted _ _ _ Stub.lenient Stub.counter
           Stub.revival_calls Stub.exhausted).
  reflexivity.
Defined.

Lemma methods_without_a_controller_object_witness :
  scan_v Stub.bounded Stub.counter Stub.detached =
    (Raise (AttributeError "go_to_voltage"), Stub.detached) /\
  go_to_v Stub.bounded 3 Stub.detached = (Return tt, Stub.detached).
Proof.
  destruct (@methods_without_a_controller_object _ _ _ Stub.bounded Stub.counter
              Stub.detached eq_refl) as (_ & H1 & H2 & _).
  split; [exact H1 | exact (H2 3)].
Defined.

Lemma scan_axis_passes_on_a_rejected_move_witness :
  let s := Stub.fresh 0 10 in
  let r := scan_axis Stub.bounded Stub.counter "v" 50 60 1 s in
  fst r = Raise (ValueError "value out of range") /\
  new_events s (snd r) = [EvGoToVoltage "v" 50].
Proof.
  cbv zeta.
  destruct (@scan_axis_passes_on_a_rejected_move _ _ _ Stub.bounded Stub.counter
              (Stub.fresh 0 10) (Stub.device 0 10) "v" 50 60 1
              (ValueError "value out of range") (Stub.device 0 10) eq_refl eq_refl)
    as (H1 & H2 & _).
  split; [exact H1 | exact H2].
Defined.

Lemma scan_axis_with_a_bad_step_witness :
  let s := Stub.fresh_lenient 0 10 in
  let r := scan_axis Stub.lenient Stub.counter "v" 0 2 0 s in
  returned (fst r) = false /\
  new_events s (snd r) = [EvGoToVoltage "v" 0; EvSleep 0.150] /\
  rate_counter (snd r) = 0%Z.
Proof.
  cbv zeta.
  destruct (@scan_axis_with_a_bad_step _ _ _ Stub.lenient Stub.counter
              (Stub.fresh_lenient 0 10) (Stub.device 0 10) "v" 0 2 0
              (ZeroDivisionError "float division by zero") eq_refl eq_refl eq_refl eq_refl)
    as (H1 & H2 & H3).
  split; [rewrite H1; reflexivity |]. split; [exact H2 | exact H3].
Defined.

Lemma scan_axis_with_a_false_controller_witness :
  let s := Stub.fresh_falsy 0 10 in
  exists rs s',
    scan_axis Stub.bounded Stub.counter "v" 0 2 0.5 s = (Return rs, s') /\
    commanded (new_events s s') = [0] /\
    sampled None (new_events s s') = List.map (fun r => (Some 0, r)) rs /\
    List.length rs = 4%nat.
Proof.
  cbv zeta.
  refine (@scan_axis_with_a_false_controller _ _ _ Stub.bounded Stub.counter
            (Stub.fresh_falsy 0 10) (Stub.falsy_device 0 10) (Stub.falsy_device 0 10)
            "v" 0 2 0.5 [0; 0.5; 1; 1.5] eq_refl eq_refl eq_refl (fun _ _ => eq_refl)
            eq_refl eq_refl).
Defined.

End Runs.
